(** * frontpage: a shallow embedding of [app.py]

    The Flask application is modelled as a family of views running in a
    small state-and-exception monad over the four database tables, the
    client session and the application log.  Library code the views call
    (werkzeug's password hashing, the Markdown renderer, pycountry's
    table, the database's text-to-integer comparison) is an interface,
    [External], that every definition is parameterised by. *)

From Stdlib Require Import String Ascii List Bool Arith PeanoNat Lia.
From Stdlib Require Import Sorted Permutation.
Import ListNotations.
Open Scope string_scope.

(** ** Data model: the four tables *)

(** [class User(UserMixin, db.Model)]: exactly three columns.  The class
    declares no other attribute. *)
Record User := mkUser
  { user_id : nat;
    username : string;
    password_hash : string }.

(** [class Category(db.Model)]. *)
Record Category := mkCategory
  { category_id : nat;
    name : string }.

(** [class Article(db.Model)].  [country], [download_link],
    [article_type] and [source] are nullable columns; [publish_date] is
    filled by its default on insert. *)
Record Article := mkArticle
  { article_id : nat;
    title : string;
    content : string;
    author : string;
    publish_date : nat;
    country : option string;
    download_link : option string;
    article_type : option string;
    source : option string }.

(** The database: three model tables and the association table
    [article_categories] with rows [(article_id, category_id)]. *)
Record DB := mkDB
  { user_table : list User;
    category_table : list Category;
    article_table : list Article;
    article_categories : list (nat * nat) }.

(** The client session kept by Flask and Flask-Login: the logged-in user
    id, and the flashed messages as [(category, message)].  Messages are
    taken out by the templates, which the views only name. *)
Record Session := mkSession
  { session_user_id : option nat;
    flashes : list (string * string) }.

Record State := mkState
  { db : DB;
    session : Session;
    logged : list string }.

(** ** Requests and responses *)

Inductive Method := GET | POST.

(** [request.form] is a multi-dict: an ordered list of key/value pairs.
    [csrf_valid] says whether the submitted CSRF token checks out, [now]
    is [datetime.utcnow()] and [salt] the fresh salt drawn by
    [generate_password_hash]. *)
Record Request := mkRequest
  { method : Method;
    form : list (string * string);
    csrf_valid : bool;
    now : nat;
    salt : string }.

(** [url_for] targets used by the views. *)
Inductive Endpoint :=
| EpHome
| EpLogin
| EpArticle (article_id : nat).

(** Errors of the registration form, per field. *)
Record FormErrors := mkFormErrors
  { csrf_token_errors : list string;
    username_errors : list string;
    password_errors : list string;
    confirm_password_errors : list string }.

(** One constructor per template, carrying the template's context. *)
Inductive Page :=
| RegisterHtml (errors : FormErrors)
| LoginHtml
| HomeHtml (articles : list (Article * string))
| PublishHtml (categories : list Category) (countries article_types : list string)
| ArticleHtml (article : Article) (content_html : string)
| EditArticleHtml (article : Article)
    (countries selected_countries article_types : list string)
| SourceArticlesHtml (articles : list Article) (source : string).

Inductive Response :=
| Redirect (target : Endpoint)
| Render (page : Page)
| Plain (body : string) (status : nat).

(** ** Exceptions and the view monad *)

Inductive Exn :=
| AttributeError (class attribute : string)
| BadRequestKeyError (key : string)
| NotFound
| MethodNotAllowed.

Inductive Result (A : Type) :=
| Ok (a : A) (st : State)
| Raise (e : Exn).
Arguments Ok {A} a st.
Arguments Raise {A} e.

(** A view computation: it reads and updates the state, or raises.  A
    raised exception carries no state: the database session of the
    request is rolled back when the request ends, and no view raises
    after it has committed. *)
Definition M (A : Type) : Type := State -> Result A.

Definition ret {A} (a : A) : M A := fun st => Ok a st.

Definition bind {A B} (m : M A) (k : A -> M B) : M B :=
  fun st =>
    match m st with
    | Ok a st' => k a st'
    | Raise e => Raise e
    end.

Definition raise {A} (e : Exn) : M A := fun _ => Raise e.

Definition gets {A} (f : State -> A) : M A := fun st => Ok (f st) st.

Definition modify (f : State -> State) : M unit := fun st => Ok tt (f st).

Declare Scope view_scope.
Delimit Scope view_scope with view.
Notation "x <- m ;; k" := (bind m (fun x => k))
  (at level 100, m at next level, right associativity) : view_scope.
Notation "m ;; k" := (bind m (fun _ => k))
  (at level 100, right associativity) : view_scope.
Open Scope view_scope.

(** ** Library interface *)

Class External := mkExternal
  { (** [werkzeug.security.generate_password_hash password], with the
        salt it draws made explicit. *)
    generate_password_hash : string -> string -> string;
    (** [werkzeug.security.check_password_hash pwhash password]. *)
    check_password_hash : string -> string -> bool;
    (** [markdown.markdown]. *)
    markdown : string -> string;
    (** [[country.name for country in pycountry.countries]]. *)
    pycountry_countries : list string;
    (** The database's comparison of an integer column with a submitted
        text value, as [Category.id.in_] applies it to form strings. *)
    sql_int_eq_text : nat -> string -> bool }.

(** ** Python strings *)

(** [sep.join(items)]. *)
Definition join (sep : string) (items : list string) : string :=
  String.concat sep items.

(** [s.split(sep)] for a non-empty [sep]: scan left to right, cut at each
    leftmost occurrence of [sep] and resume after it.  [skip] counts the
    characters of a matched separator still to be passed over; [cur] is
    the piece being collected. *)
Fixpoint split_from (sep : string) (skip : nat) (cur s : string) : list string :=
  match s with
  | EmptyString => [cur]
  | String c s' =>
      match skip with
      | S k => split_from sep k cur s'
      | O =>
          if String.prefix sep s
          then cur :: split_from sep (String.length sep - 1) "" s'
          else split_from sep 0 (cur ++ String c "") s'
      end
  end.

Definition split (sep s : string) : list string := split_from sep 0 "" s.

(** [sub in s]. *)
Fixpoint contains (sub s : string) : bool :=
  String.prefix sub s ||
  match s with
  | EmptyString => false
  | String _ s' => contains sub s'
  end.

(** Truth value of an optional string: [None] and [""] are falsy. *)
Definition truthy (s : option string) : bool :=
  match s with
  | Some s => negb (s =? "")
  | None => false
  end.

(** [c.isspace()] on the ASCII range. *)
Definition isspace (c : ascii) : bool :=
  let n := nat_of_ascii c in
  ((9 <=? n)%nat && (n <=? 13)%nat) || ((28 <=? n)%nat && (n <=? 32)%nat).

(** [s.lstrip()]; [s.strip()] is empty exactly when [s.lstrip()] is. *)
Fixpoint lstrip (s : string) : string :=
  match s with
  | EmptyString => EmptyString
  | String c s' => if isspace c then lstrip s' else s
  end.

(** ** The multi-dict [request.form] *)

(** [form.getlist(key)]: every value submitted under [key], in order. *)
Definition getlist (f : list (string * string)) (key : string) : list string :=
  map snd (filter (fun kv => fst kv =? key) f).

(** [form[key]]: the first value under [key]; a missing key raises. *)
Definition getitem (f : list (string * string)) (key : string) : M string :=
  match getlist f key with
  | v :: _ => ret v
  | [] => raise (BadRequestKeyError key)
  end.

(** [article.country.split(", ") if article.country else []], the
    selection the edit form starts from. *)
Definition selected_countries (a : Article) : list string :=
  match country a with
  | Some c => if truthy (Some c) then split ", " c else []
  | None => []
  end.

(** ** State updates *)

Definition with_db (f : DB -> DB) (st : State) : State :=
  mkState (f (db st)) (session st) (logged st).

Definition with_session (f : Session -> Session) (st : State) : State :=
  mkState (db st) (f (session st)) (logged st).

(** [flash(message, category)]; the category defaults to ["message"]. *)
Definition flash_as (category message : string) : M unit :=
  modify (with_session (fun s =>
    mkSession (session_user_id s) (flashes s ++ [(category, message)]))).

Definition flash (message : string) : M unit := flash_as "message" message.

(** ** ORM: queries and the unit of work *)

(** The next primary key handed out by the database for a table whose
    present keys are [ids]. *)
Definition next_id (ids : list nat) : nat := S (fold_right Nat.max 0 ids).

(** [User.query.get(id)]. *)
Definition User_get (d : DB) (id : nat) : option User :=
  find (fun u => Nat.eqb (user_id u) id) (user_table d).

(** [User.query.filter_by(username=name).first()]. *)
Definition User_filter_by_username_first (d : DB) (uname : string) : option User :=
  find (fun u => String.eqb (username u) uname) (user_table d).

(** [Article.query.get_or_404(id)]. *)
Definition Article_get_or_404 (id : nat) : M Article :=
  fun st =>
    match find (fun a => Nat.eqb (article_id a) id) (article_table (db st)) with
    | Some a => Ok a st
    | None => Raise NotFound
    end.

(** [Article.query.filter_by(source=src).all()]; a NULL source matches
    nothing. *)
Definition Article_filter_by_source (d : DB) (src : string) : list Article :=
  filter (fun a => match source a with
                   | Some s => String.eqb s src
                   | None => false
                   end) (article_table d).

(** [Article.query.order_by(Article.publish_date.desc()).all()], as a
    stable insertion sort. *)
Fixpoint insert_desc (a : Article) (l : list Article) : list Article :=
  match l with
  | [] => [a]
  | b :: l' =>
      if Nat.leb (publish_date b) (publish_date a)
      then a :: l
      else b :: insert_desc a l'
  end.

Definition order_by_publish_date_desc (l : list Article) : list Article :=
  fold_right insert_desc [] l.

(** The [categories] relationship of an article, loaded through the
    association table. *)
Definition Article_categories (d : DB) (a : Article) : list Category :=
  filter (fun c =>
            existsb (fun r => Nat.eqb (fst r) (article_id a)
                              && Nat.eqb (snd r) (category_id c))
                    (article_categories d))
         (category_table d).

(** An [Article] object not yet inserted: its column values and its
    [categories] collection.  The primary key and [publish_date] are
    unset (0) until the INSERT. *)
Record ArticleObj := mkArticleObj
  { row : Article;
    categories : list Category }.

(** [Article(title=..., content=..., author=..., country=...,
    article_type=..., download_link=...)]. *)
Definition Article_new (t c a cn ty dl : string) : ArticleObj :=
  mkArticleObj (mkArticle 0 t c a 0 (Some cn) (Some dl) (Some ty) None) [].

Definition set_categories (o : ArticleObj) (cs : list Category) : ArticleObj :=
  mkArticleObj (row o) cs.

Definition set_obj_source (o : ArticleObj) (s : string) : ArticleObj :=
  let a := row o in
  mkArticleObj
    (mkArticle (article_id a) (title a) (content a) (author a) (publish_date a)
               (country a) (download_link a) (article_type a) (Some s))
    (categories o).

(** Attribute assignments on a loaded article. *)
Definition set_title (a : Article) (v : string) : Article :=
  mkArticle (article_id a) v (content a) (author a) (publish_date a)
            (country a) (download_link a) (article_type a) (source a).

Definition set_content (a : Article) (v : string) : Article :=
  mkArticle (article_id a) (title a) v (author a) (publish_date a)
            (country a) (download_link a) (article_type a) (source a).

Definition set_country (a : Article) (v : string) : Article :=
  mkArticle (article_id a) (title a) (content a) (author a) (publish_date a)
            (Some v) (download_link a) (article_type a) (source a).

Definition set_article_type (a : Article) (v : string) : Article :=
  mkArticle (article_id a) (title a) (content a) (author a) (publish_date a)
            (country a) (download_link a) (Some v) (source a).

Definition set_download_link (a : Article) (v : string) : Article :=
  mkArticle (article_id a) (title a) (content a) (author a) (publish_date a)
            (country a) (Some v) (article_type a) (source a).

(** The row an [ArticleObj] becomes on INSERT at time [t] into a table
    whose rows are [rows]. *)
Definition inserted_row (rows : list Article) (t : nat) (o : ArticleObj) : Article :=
  let a := row o in
  mkArticle (next_id (map article_id rows)) (title a) (content a) (author a) t
            (country a) (download_link a) (article_type a) (source a).

(** [db.session.add(user)] for [User(username=..., password_hash=...)]. *)
Definition db_session_add_user (uname pwhash : string) : M unit :=
  modify (with_db (fun d =>
    mkDB (user_table d ++ [mkUser (next_id (map user_id (user_table d))) uname pwhash])
         (category_table d) (article_table d) (article_categories d))).

(** [db.session.add(new_article)]: the row, and one association row per
    member of its [categories] collection. *)
Definition db_session_add_article (t : nat) (o : ArticleObj) : M unit :=
  modify (with_db (fun d =>
    let a := inserted_row (article_table d) t o in
    mkDB (user_table d) (category_table d)
         (article_table d ++ [a])
         (article_categories d
            ++ map (fun c => (article_id a, category_id c)) (categories o)))).

(** The UPDATE a commit issues for a loaded article whose attributes
    were assigned. *)
Definition db_session_flush_article (a : Article) : M unit :=
  modify (with_db (fun d =>
    mkDB (user_table d) (category_table d)
         (map (fun b => if Nat.eqb (article_id b) (article_id a) then a else b)
              (article_table d))
         (article_categories d))).

(** [db.session.delete(article)]: the row goes, and with it its rows of
    the [secondary] table of the [categories] relationship. *)
Definition db_session_delete (a : Article) : M unit :=
  modify (with_db (fun d =>
    mkDB (user_table d) (category_table d)
         (filter (fun b => negb (Nat.eqb (article_id b) (article_id a)))
                 (article_table d))
         (filter (fun r => negb (Nat.eqb (fst r) (article_id a)))
                 (article_categories d)))).

(** [db.session.commit()]: the staged changes above become durable. *)
Definition db_session_commit : M unit := ret tt.

(** ** Flask-Login *)

(** [current_user]: the user [load_user] finds for the id stored in the
    session; anonymous ([None]) otherwise. *)
Definition load_user (st : State) : option User :=
  match session_user_id (session st) with
  | Some id => User_get (db st) id
  | None => None
  end.

Definition current_user : M (option User) := gets load_user.

(** [current_user.username]; the anonymous user has no such attribute. *)
Definition current_user_username : M string :=
  u <- current_user;;
  match u with
  | Some u => ret (username u)
  | None => raise (AttributeError "AnonymousUserMixin" "username")
  end.

(** [current_user.is_admin]: neither [User], [UserMixin] nor the
    anonymous user defines it, so the access raises. *)
Definition current_user_is_admin : M bool :=
  u <- current_user;;
  match u with
  | Some _ => raise (AttributeError "User" "is_admin")
  | None => raise (AttributeError "AnonymousUserMixin" "is_admin")
  end.

Definition login_user (u : User) : M unit :=
  modify (with_session (fun s => mkSession (Some (user_id u)) (flashes s))).

Definition logout_user : M unit :=
  modify (with_session (fun s => mkSession None (flashes s))).

(** [@login_manager.unauthorized_handler]. *)
Definition unauthorized : M Response :=
  flash "You need to be logged in to view that page.";;
  ret (Redirect EpHome).

(** [@login_required]. *)
Definition login_required (view : M Response) : M Response :=
  u <- current_user;;
  match u with
  | Some _ => view
  | None => unauthorized
  end.

(** ** WTForms: validators and the registration form *)

(** What a validator does: return, raise [ValidationError] (the chain
    goes on) or raise [StopValidation] (the chain ends). *)
Inductive Verdict :=
| Pass
| Invalid (message : string)
| Stop (message : string).

(** A field's chain: the errors collected, in order. *)
Fixpoint run_validation_chain (chain : list (option string -> Verdict))
    (data : option string) : list string :=
  match chain with
  | [] => []
  | v :: chain' =>
      match v data with
      | Pass => run_validation_chain chain' data
      | Invalid m => m :: run_validation_chain chain' data
      | Stop m => [m]
      end
  end.

(** [DataRequired()]: the data is truthy and not only whitespace. *)
Definition DataRequired (data : option string) : Verdict :=
  match data with
  | Some s =>
      if negb (s =? "") && negb (lstrip s =? "")
      then Pass
      else Stop "This field is required."
  | None => Stop "This field is required."
  end.

(** [EqualTo("password")], given the data of the other field. *)
Definition EqualTo (other data : option string) : Verdict :=
  match data, other with
  | Some a, Some b =>
      if a =? b then Pass else Invalid "Field must be equal to password."
  | None, None => Pass
  | _, _ => Invalid "Field must be equal to password."
  end.

(** [RegistrationForm.validate_username]. *)
Definition validate_username (d : DB) (data : option string) : Verdict :=
  match data with
  | Some uname =>
      match User_filter_by_username_first d uname with
      | Some _ =>
          Invalid "That username is already taken. Please choose a different one."
      | None => Pass
      end
  | None => Pass
  end.

(** The data a field of a submitted form holds: the first value posted
    under its name. *)
Definition field_data (req : Request) (fname : string) : option string :=
  hd_error (getlist (form req) fname).

(** [form.validate()]: every field runs its chain, the inline validator
    last; the CSRF token is a field like the others. *)
Definition RegistrationForm_validate (d : DB) (req : Request) : FormErrors :=
  mkFormErrors
    (if csrf_valid req then [] else ["The CSRF token is missing."])
    (run_validation_chain [DataRequired; validate_username d]
                          (field_data req "username"))
    (run_validation_chain [DataRequired] (field_data req "password"))
    (run_validation_chain [DataRequired; EqualTo (field_data req "password")]
                          (field_data req "confirm_password")).

Definition no_errors : FormErrors := mkFormErrors [] [] [] [].

Definition is_valid (e : FormErrors) : bool :=
  match csrf_token_errors e, username_errors e,
        password_errors e, confirm_password_errors e with
  | [], [], [], [] => true
  | _, _, _, _ => false
  end.

(** [form.validate_on_submit()]: the errors of the form, and whether it
    was submitted and valid.  A GET is not a submission and validates
    nothing. *)
Definition validate_on_submit (req : Request) : M (bool * FormErrors) :=
  match method req with
  | POST =>
      e <- gets (fun st => RegistrationForm_validate (db st) req);;
      ret (is_valid e, e)
  | GET => ret (false, no_errors)
  end.

(** ** The views *)

Section Views.
Context `{External}.

Definition article_types : list string :=
  ["Hack"; "Leak"; "News"; "Opinion"; "Other"].

Definition is_authenticated (u : option User) : bool :=
  match u with
  | Some _ => true
  | None => false
  end.

(** [/register]. *)
Definition register (req : Request) : M Response :=
  u <- current_user;;
  if is_authenticated u then ret (Redirect EpHome) else
  v <- validate_on_submit req;;
  if fst v then
    match field_data req "username", field_data req "password" with
    | Some form_username, Some form_password =>
        let hashed_password := generate_password_hash form_password (salt req) in
        db_session_add_user form_username hashed_password;;
        db_session_commit;;
        flash_as "success" "Your account has been created! You are now able to log in";;
        ret (Redirect EpLogin)
    | _, _ =>
        (* not reached: a valid form has data in both fields *)
        ret (Render (RegisterHtml (snd v)))
    end
  else ret (Render (RegisterHtml (snd v))).

(** [/login]. *)
Definition login (req : Request) : M Response :=
  match method req with
  | POST =>
      uname <- getitem (form req) "username";;
      password <- getitem (form req) "password";;
      user <- gets (fun st => User_filter_by_username_first (db st) uname);;
      match user with
      | Some u =>
          if check_password_hash (password_hash u) password
          then login_user u;; ret (Redirect EpHome)
          else flash "Invalid username or password";; ret (Render LoginHtml)
      | None => flash "Invalid username or password";; ret (Render LoginHtml)
      end
  | GET => ret (Render LoginHtml)
  end.

(** [/logout]. *)
Definition logout : M Response :=
  login_required (logout_user;; ret (Redirect EpHome)).

(** [/]. *)
Definition home : M Response :=
  articles <- gets (fun st => order_by_publish_date_desc (article_table (db st)));;
  ret (Render (HomeHtml (map (fun a => (a, markdown (content a))) articles))).

(** [Category.query.filter(Category.id.in_(ids)).all()]. *)
Definition Category_filter_id_in (d : DB) (ids : list string) : list Category :=
  filter (fun c => existsb (sql_int_eq_text (category_id c)) ids)
         (category_table d).

(** [/publish]. *)
Definition publish (req : Request) : M Response :=
  login_required (
    all_categories <- gets (fun st => category_table (db st));;
    let countries := pycountry_countries in
    match method req with
    | POST =>
        article_title <- getitem (form req) "title";;
        article_content <- getitem (form req) "content";;
        let article_countries := getlist (form req) "countries" in
        let article_country := join ", " article_countries in
        article_type <- getitem (form req) "type";;
        article_download_link <- getitem (form req) "download_link";;
        article_author <- current_user_username;;
        let new_article :=
          Article_new article_title article_content article_author
                      article_country article_type article_download_link in
        let selected_category_ids := getlist (form req) "categories" in
        selected_categories <-
          gets (fun st => Category_filter_id_in (db st) selected_category_ids);;
        let new_article := set_categories new_article selected_categories in
        article_source <- getitem (form req) "source";;
        let new_article := set_obj_source new_article article_source in
        db_session_add_article (now req) new_article;;
        db_session_commit;;
        flash "Article published successfully.";;
        ret (Redirect EpHome)
    | GET => ret (Render (PublishHtml all_categories countries article_types))
    end).

(** [/article/<int:article_id>]. *)
Definition article (id : nat) : M Response :=
  a <- Article_get_or_404 id;;
  let content_html := markdown (content a) in
  ret (Render (ArticleHtml a content_html)).

(** [current_user.username == article.author or current_user.is_admin]:
    the right operand is evaluated only when the left one is false. *)
Definition author_or_admin (a : Article) : M bool :=
  uname <- current_user_username;;
  if uname =? author a then ret true else current_user_is_admin.

(** [/edit/<int:article_id>]. *)
Definition edit_article (id : nat) (req : Request) : M Response :=
  login_required (
    a <- Article_get_or_404 id;;
    let countries := pycountry_countries in
    allowed <- author_or_admin a;;
    if negb allowed then
      flash "You do not have permission to edit this article.";;
      ret (Redirect EpHome)
    else
    match method req with
    | POST =>
        v <- getitem (form req) "title";;
        let a := set_title a v in
        v <- getitem (form req) "content";;
        let a := set_content a v in
        let article_countries := getlist (form req) "countries" in
        let a := set_country a (join ", " article_countries) in
        v <- getitem (form req) "type";;
        let a := set_article_type a v in
        v <- getitem (form req) "download_link";;
        let a := set_download_link a v in
        db_session_flush_article a;;
        db_session_commit;;
        flash "Article updated successfully.";;
        ret (Redirect (EpArticle id))
    | GET =>
        ret (Render (EditArticleHtml a countries (selected_countries a) article_types))
    end).

(** [/source/<source>]. *)
Definition articles_by_source (src : string) : M Response :=
  articles <- gets (fun st => Article_filter_by_source (db st) src);;
  ret (Render (SourceArticlesHtml articles src)).

(** [/delete_article/<int:article_id>]. *)
Definition delete_article (id : nat) : M Response :=
  login_required (
    a <- Article_get_or_404 id;;
    allowed <- author_or_admin a;;
    if negb allowed then
      flash "You do not have permission to delete this article.";;
      ret (Redirect EpHome)
    else
      db_session_delete a;;
      db_session_commit;;
      flash "Article deleted successfully.";;
      ret (Redirect EpHome)).

(** ** Routing and the catch-all error handler *)

Inductive Route :=
| RouteRegister
| RouteLogin
| RouteLogout
| RouteHome
| RoutePublish
| RouteArticle (id : nat)
| RouteEdit (id : nat)
| RouteSource (src : string)
| RouteDelete (id : nat).

(** The [methods=] of each route (GET alone when none is given). *)
Definition methods (r : Route) : list Method :=
  match r with
  | RouteRegister | RouteLogin | RoutePublish | RouteEdit _ => [GET; POST]
  | RouteDelete _ => [POST]
  | RouteLogout | RouteHome | RouteArticle _ | RouteSource _ => [GET]
  end.

Definition Method_eqb (a b : Method) : bool :=
  match a, b with
  | GET, GET | POST, POST => true
  | _, _ => false
  end.

Definition view_function (r : Route) (req : Request) : M Response :=
  if existsb (Method_eqb (method req)) (methods r) then
    match r with
    | RouteRegister => register req
    | RouteLogin => login req
    | RouteLogout => logout
    | RouteHome => home
    | RoutePublish => publish req
    | RouteArticle id => article id
    | RouteEdit id => edit_article id req
    | RouteSource src => articles_by_source src
    | RouteDelete id => delete_article id
    end
  else raise MethodNotAllowed.

Definition describe (e : Exn) : string :=
  match e with
  | AttributeError c a => "'" ++ c ++ "' object has no attribute '" ++ a ++ "'"
  | BadRequestKeyError k => "400 Bad Request: " ++ k
  | NotFound => "404 Not Found"
  | MethodNotAllowed => "405 Method Not Allowed"
  end.

(** [@app.errorhandler(Exception)]: log, answer a generic 500.  Being
    registered for [Exception], it also receives the HTTP errors raised
    by routing, [get_or_404] and [request.form[...]].  The state is the
    one the request started from, plus the log line. *)
Definition handle_exception (e : Exn) (st : State) : Response * State :=
  (Plain "An internal error occurred" 500,
   mkState (db st) (session st)
           (logged st ++ ["An error occurred: " ++ describe e])).

(** One request, from routing to response. *)
Definition handle_request (r : Route) (req : Request) (st : State)
  : Response * State :=
  match view_function r req st with
  | Ok resp st' => (resp, st')
  | Raise e => handle_exception e st
  end.

End Views.

(** ** A small instance of the library interface

    Used to run the views on concrete requests. *)

(** A stand-in for the hash: tagged and injective in the password; it
    does not use the salt. *)
Definition demo_generate_password_hash (password salt : string) : string :=
  "demo$" ++ password.

Definition demo_check_password_hash (pwhash password : string) : bool :=
  pwhash =? "demo$" ++ password.

Definition digit_of_ascii (c : ascii) : option nat :=
  let n := nat_of_ascii c in
  if (48 <=? n)%nat && (n <=? 57)%nat then Some (n - 48) else None.

(** Decimal text to number; [None] when a character is not a digit. *)
Fixpoint nat_of_text (acc : nat) (s : string) : option nat :=
  match s with
  | EmptyString => Some acc
  | String c s' =>
      match digit_of_ascii c with
      | Some d => nat_of_text (10 * acc + d) s'
      | None => None
      end
  end.

Definition demo_sql_int_eq_text (n : nat) (s : string) : bool :=
  match s with
  | EmptyString => false
  | _ => match nat_of_text 0 s with
         | Some m => Nat.eqb n m
         | None => false
         end
  end.

Definition demo : External :=
  mkExternal demo_generate_password_hash demo_check_password_hash
             (fun s => "<p>" ++ s ++ "</p>")
             ["France"; "Germany"; "Korea, Republic of"]
             demo_sql_int_eq_text.

(** Two users, two categories and one article by the first user. *)
Definition alice : User := mkUser 1 "alice" "demo$wonderland".
Definition bob : User := mkUser 2 "bob" "demo$builder".

Definition leak1 : Article :=
  mkArticle 1 "Leak" "*text*" "alice" 100
            (Some "France, Germany") (Some "http://x/1") (Some "Leak") (Some "AP").

Definition demo_db : DB :=
  mkDB [alice; bob] [mkCategory 1 "Politics"; mkCategory 2 "Tech"]
       [leak1] [(1, 1)].

Definition as_user (id : option nat) : State :=
  mkState demo_db (mkSession id []) [].

Definition request (m : Method) (f : list (string * string)) : Request :=
  mkRequest m f true 200 "NaCl".

Definition demo_handle : Route -> Request -> State -> Response * State :=
  @handle_request demo.

(** An article form as the publish and edit pages post it; the type is
    none of the five labels, one submitted category id matches no row and
    one is not a number. *)
Definition article_form (countries : list string) : list (string * string) :=
  ([("title", "Breach"); ("content", "# Breach")]
   ++ map (fun c => ("countries", c)) countries
   ++ [("type", "Rumour"); ("download_link", "http://x/2");
       ("source", "Reuters");
       ("categories", "2"); ("categories", "9"); ("categories", "x")])%list.

(** A later article by bob, without a source, and a state holding both
    articles. *)
Definition note2 : Article :=
  mkArticle 2 "Note" "text" "bob" 300 (Some "") (Some "") (Some "News") None.

Definition two_articles (id : option nat) : State :=
  mkState (mkDB [alice; bob] [mkCategory 1 "Politics"; mkCategory 2 "Tech"]
                [leak1; note2] [(1, 1); (2, 2)])
          (mkSession id []) [].

(** A new database file, nobody logged in. *)
Definition fresh_state : State := mkState (mkDB [] [] [] []) (mkSession None []) [].

Definition registration_form (uname pw confirm : string) : list (string * string) :=
  [("username", uname); ("password", pw); ("confirm_password", confirm)].

Definition login_form (uname pw : string) : list (string * string) :=
  [("username", uname); ("password", pw)].

(** ** Vocabulary of the statements *)

(** The row a successful POST to publish inserts. *)
Definition published_row (st : State) (req : Request) (u : User)
    (t c ty dl src : string) : Article :=
  mkArticle (next_id (map article_id (article_table (db st)))) t c (username u)
            (now req) (Some (join ", " (getlist (form req) "countries")))
            (Some dl) (Some ty) (Some src).

(** The article a successful POST to edit leaves in place of [a]. *)
Definition edited_row (a : Article) (req : Request) (t c ty dl : string) : Article :=
  mkArticle (article_id a) t c (author a) (publish_date a)
            (Some (join ", " (getlist (form req) "countries")))
            (Some dl) (Some ty) (source a).

(** The reading of the edit route under which every field but [id],
    [author] and [publish_date] takes the submitted value: the five
    assigned columns, and also [source] and the categories. *)
Definition edit_replaces_all_but_identity `{External}
    (id : nat) (req : Request) (st : State) : Prop :=
  let out := handle_request (RouteEdit id) req st in
  forall a',
    find (fun b => Nat.eqb (article_id b) id) (article_table (db (snd out))) = Some a' ->
    Some (title a') = field_data req "title" /\
    Some (content a') = field_data req "content" /\
    country a' = Some (join ", " (getlist (form req) "countries")) /\
    article_type a' = field_data req "type" /\
    download_link a' = field_data req "download_link" /\
    source a' = field_data req "source" /\
    Article_categories (db (snd out)) a' =
      Category_filter_id_in (db st) (getlist (form req) "categories").

(** The state after a successful registration of [uname] with password
    hash [pwhash]. *)
Definition registered (st : State) (uname pwhash : string) : State :=
  mkState
    (mkDB (user_table (db st)
             ++ [mkUser (next_id (map user_id (user_table (db st)))) uname pwhash])
          (category_table (db st)) (article_table (db st))
          (article_categories (db st)))
    (mkSession (session_user_id (session st))
               (flashes (session st)
                  ++ [("success",
                       "Your account has been created! You are now able to log in")]))
    (logged st).

(** States that follow a state: by a request of the client at hand, or
    by the arrival of another client with a session of its own. *)
Inductive reachable `{External} (st : State) : State -> Prop :=
| reach_refl : reachable st st
| reach_request (st' : State) (r : Route) (req : Request) :
    reachable st st' -> reachable st (snd (handle_request r req st'))
| reach_client (st' : State) (s : Session) :
    reachable st st' -> reachable st (mkState (db st') s (logged st')).

(** The foreign key of [article_categories.article_id]: every
    association row refers to a row of the article table. *)
Definition fk_article (d : DB) : Prop :=
  forall r, In r (article_categories d) ->
            In (fst r) (map article_id (article_table d)).

(** The routes decorated with [@login_required]. *)
Definition login_protected (r : Route) : bool :=
  match r with
  | RouteLogout | RoutePublish | RouteEdit _ | RouteDelete _ => true
  | RouteRegister | RouteLogin | RouteHome | RouteArticle _ | RouteSource _ => false
  end.

(** The method of the request is one the route accepts. *)
Definition method_allowed (r : Route) (req : Request) : bool :=
  existsb (Method_eqb (method req)) (methods r).

(** The state a request leaves when it only flashes [message]. *)
Definition flashed (st : State) (message : string) : State :=
  mkState (db st)
          (mkSession (session_user_id (session st))
                     (flashes (session st) ++ [("message", message)]))
          (logged st).


(** [db.create_all()] on a new database file: the four tables, empty. *)
Definition fresh_db : DB := mkDB [] [] [] [].

(** The foreign key of [article_categories.category_id]. *)
Definition fk_category (d : DB) : Prop :=
  forall r, In r (article_categories d) ->
            In (snd r) (map category_id (category_table d)).

(** Every article names a registered user as its author. *)
Definition authors_registered (d : DB) : Prop :=
  forall a, In a (article_table d) ->
            In (author a) (map username (user_table d)).

(** Newest first. *)
Definition newer_or_equal (a b : Article) : Prop :=
  publish_date b <= publish_date a.

(** The writes a request can leave in the database: none, one user row,
    one article row with its association rows, the update of one
    article row that keeps its id and author, or the removal of the rows
    of one article. *)
Inductive writes (st : State) : DB -> Prop :=
| writes_nothing : writes st (db st)
| writes_user (uname pwhash : string) :
    User_filter_by_username_first (db st) uname = None ->
    writes st (db (registered st uname pwhash))
| writes_article (u : User) (a : Article) (ks : list Category) :
    load_user st = Some u ->
    author a = username u ->
    article_id a = next_id (map article_id (article_table (db st))) ->
    incl ks (category_table (db st)) ->
    writes st (mkDB (user_table (db st)) (category_table (db st))
                    (article_table (db st) ++ [a])
                    (article_categories (db st)
                       ++ map (fun k => (article_id a, category_id k)) ks))
| writes_update (a a' : Article) :
    In a (article_table (db st)) ->
    article_id a' = article_id a ->
    author a' = author a ->
    writes st (mkDB (user_table (db st)) (category_table (db st))
                    (map (fun b => if Nat.eqb (article_id b) (article_id a')
                                   then a' else b) (article_table (db st)))
                    (article_categories (db st)))
| writes_delete (a : Article) :
    writes st (mkDB (user_table (db st)) (category_table (db st))
                    (filter (fun b => negb (Nat.eqb (article_id b) (article_id a)))
                            (article_table (db st)))
                    (filter (fun r => negb (Nat.eqb (fst r) (article_id a)))
                            (article_categories (db st)))).

(** The outcome of a request that ended in the catch-all handler: the
    generic 500 page, the database and the session as they were. *)
Definition failed (st : State) (out : Response * State) : Prop :=
  fst out = Plain "An internal error occurred" 500 /\
  db (snd out) = db st /\ session (snd out) = session st.

(** * Properties *)

Section Properties.
Context `{External}.

(** ** Running the monad *)

Lemma getitem_field (req : Request) (key v : string) :
  field_data req key = Some v -> getitem (form req) key = ret v.
Proof.
  unfold field_data, getitem.
  destruct (getlist (form req) key); simpl; congruence.
Qed.

Lemma login_required_authenticated (view : M Response) (st : State) (u : User) :
  load_user st = Some u -> login_required view st = view st.
Proof.
  intros Hu. unfold login_required, bind, current_user, gets.
  now rewrite Hu.
Qed.

Lemma login_required_anonymous (view : M Response) (st : State) :
  load_user st = None -> login_required view st = unauthorized st.
Proof.
  intros Hu. unfold login_required, bind, current_user, gets.
  now rewrite Hu.
Qed.

(** The authorisation check of edit and delete, for the author and for
    anybody else who is logged in. *)
Lemma author_or_admin_author (a : Article) (st : State) (u : User) :
  load_user st = Some u -> username u = author a ->
  author_or_admin a st = Ok true st.
Proof.
  intros Hu Ha.
  unfold author_or_admin, current_user_username, current_user, bind, gets, ret.
  rewrite Hu, Ha, String.eqb_refl. reflexivity.
Qed.

Lemma author_or_admin_other (a : Article) (st : State) (u : User) :
  load_user st = Some u -> username u <> author a ->
  author_or_admin a st = Raise (AttributeError "User" "is_admin").
Proof.
  intros Hu Ha. apply String.eqb_neq in Ha.
  unfold author_or_admin, current_user_username, current_user_is_admin,
    current_user, bind, gets, ret, raise.
  rewrite Hu, Ha, Hu. reflexivity.
Qed.

Lemma Article_get_or_404_found (id : nat) (st : State) (a : Article) :
  find (fun b => Nat.eqb (article_id b) id) (article_table (db st)) = Some a ->
  Article_get_or_404 id st = Ok a st.
Proof. unfold Article_get_or_404. now intros ->. Qed.

(** ** Authorisation of edit and delete *)

(** C1.  For an existing article and a logged-in requester who is not
    its author, the authorisation check of edit and of delete reads
    [current_user.is_admin], which no user object has: the request ends
    in the catch-all handler with the generic 500 answer, not in the
    redirect with a flash message the view spells out.  The database and
    the flashed messages are as before the request. *)
Theorem edit_delete_by_other_user_is_500
    (id : nat) (req_edit req_delete : Request) (st : State)
    (u : User) (a : Article) :
  load_user st = Some u ->
  find (fun b => Nat.eqb (article_id b) id) (article_table (db st)) = Some a ->
  username u <> author a ->
  method req_delete = POST ->
  let failed := handle_exception (AttributeError "User" "is_admin") st in
  handle_request (RouteEdit id) req_edit st = failed /\
  handle_request (RouteDelete id) req_delete st = failed /\
  fst failed = Plain "An internal error occurred" 500 /\
  fst failed <> Redirect EpHome /\
  db (snd failed) = db st /\
  session (snd failed) = session st.
Proof.
  intros Hu Hfind Hneq Hpost failed.
  assert (Hcheck : forall (k : Article -> bool -> M Response),
             bind (Article_get_or_404 id)
                  (fun a => bind (author_or_admin a) (k a)) st
             = Raise (AttributeError "User" "is_admin")).
  { intros k. unfold bind at 1. rewrite (Article_get_or_404_found _ _ _ Hfind).
    unfold bind at 1. now rewrite (author_or_admin_other _ _ _ Hu Hneq). }
  assert (Hedit : edit_article id req_edit st
                  = Raise (AttributeError "User" "is_admin")).
  { unfold edit_article. rewrite (login_required_authenticated _ _ _ Hu).
    exact (Hcheck (fun a allowed => _)). }
  assert (Hdel : delete_article id st = Raise (AttributeError "User" "is_admin")).
  { unfold delete_article. rewrite (login_required_authenticated _ _ _ Hu).
    exact (Hcheck (fun a allowed => _)). }
  repeat split.
  - unfold handle_request, view_function.
    destruct (method req_edit); simpl; now rewrite Hedit.
  - unfold handle_request, view_function. rewrite Hpost. simpl.
    now rewrite Hdel.
  - discriminate.
Qed.

(** ** What publish and edit write *)

Lemma publish_post (req : Request) (st : State) (u : User)
    (t c ty dl src : string) :
  load_user st = Some u ->
  method req = POST ->
  field_data req "title" = Some t ->
  field_data req "content" = Some c ->
  field_data req "type" = Some ty ->
  field_data req "download_link" = Some dl ->
  field_data req "source" = Some src ->
  let a := published_row st req u t c ty dl src in
  handle_request RoutePublish req st =
  (Redirect EpHome,
   mkState
     (mkDB (user_table (db st)) (category_table (db st))
           (article_table (db st) ++ [a])
           (article_categories (db st)
              ++ map (fun k => (article_id a, category_id k))
                     (Category_filter_id_in (db st)
                        (getlist (form req) "categories"))))
     (mkSession (session_user_id (session st))
                (flashes (session st)
                   ++ [("message", "Article published successfully.")]))
     (logged st)).
Proof.
  intros Hu Hm Ht Hc Hty Hdl Hsrc a.
  unfold handle_request, view_function. rewrite Hm. simpl.
  unfold publish. rewrite (login_required_authenticated _ _ _ Hu).
  rewrite Hm.
  rewrite (getitem_field _ _ _ Ht), (getitem_field _ _ _ Hc),
    (getitem_field _ _ _ Hty), (getitem_field _ _ _ Hdl),
    (getitem_field _ _ _ Hsrc).
  unfold current_user_username, current_user, bind, gets, ret.
  rewrite Hu. reflexivity.
Qed.

Lemma edit_post (id : nat) (req : Request) (st : State) (u : User) (a : Article)
    (t c ty dl : string) :
  load_user st = Some u ->
  find (fun b => Nat.eqb (article_id b) id) (article_table (db st)) = Some a ->
  username u = author a ->
  method req = POST ->
  field_data req "title" = Some t ->
  field_data req "content" = Some c ->
  field_data req "type" = Some ty ->
  field_data req "download_link" = Some dl ->
  let a' := edited_row a req t c ty dl in
  handle_request (RouteEdit id) req st =
  (Redirect (EpArticle id),
   mkState
     (mkDB (user_table (db st)) (category_table (db st))
           (map (fun b => if Nat.eqb (article_id b) (article_id a) then a' else b)
                (article_table (db st)))
           (article_categories (db st)))
     (mkSession (session_user_id (session st))
                (flashes (session st)
                   ++ [("message", "Article updated successfully.")]))
     (logged st)).
Proof.
  intros Hu Hfind Ha Hm Ht Hc Hty Hdl a'.
  unfold handle_request, view_function. rewrite Hm. simpl.
  unfold edit_article. rewrite (login_required_authenticated _ _ _ Hu).
  rewrite Hm.
  rewrite (getitem_field _ _ _ Ht), (getitem_field _ _ _ Hc),
    (getitem_field _ _ _ Hty), (getitem_field _ _ _ Hdl).
  unfold bind at 1. rewrite (Article_get_or_404_found _ _ _ Hfind).
  unfold bind at 1. rewrite (author_or_admin_author _ _ _ Hu Ha).
  reflexivity.
Qed.

Lemma find_replaced (id : nat) (a a' : Article) (l : list Article) :
  find (fun b => Nat.eqb (article_id b) id) l = Some a ->
  article_id a' = id ->
  find (fun b => Nat.eqb (article_id b) id)
       (map (fun b => if Nat.eqb (article_id b) id then a' else b) l) = Some a'.
Proof.
  intros Hfind Hid. induction l as [|b l IH]; simpl in *; [discriminate|].
  destruct (Nat.eqb (article_id b) id) eqn:E.
  - now rewrite Hid, Nat.eqb_refl.
  - rewrite E. auto.
Qed.

Lemma find_article_id (id : nat) (a : Article) (l : list Article) :
  find (fun b => Nat.eqb (article_id b) id) l = Some a -> article_id a = id.
Proof.
  intros Hfind. apply find_some in Hfind as [_ E]. now apply Nat.eqb_eq.
Qed.

(** C2, as the code has it.  A POST to the edit route by the article's
    author with the four indexed fields present redirects to the article
    and replaces [title], [content], [country] (the submitted countries
    joined by a comma and a space), [article_type] and [download_link] by
    the submitted values; [id], [author], [publish_date], [source] and
    the article's categories are as before, and so is every other row. *)
Theorem edit_post_replaces_five_fields
    (id : nat) (req : Request) (st : State) (u : User) (a : Article)
    (t c ty dl : string) :
  load_user st = Some u ->
  find (fun b => Nat.eqb (article_id b) id) (article_table (db st)) = Some a ->
  username u = author a ->
  method req = POST ->
  field_data req "title" = Some t ->
  field_data req "content" = Some c ->
  field_data req "type" = Some ty ->
  field_data req "download_link" = Some dl ->
  let out := handle_request (RouteEdit id) req st in
  fst out = Redirect (EpArticle id) /\
  exists a',
    find (fun b => Nat.eqb (article_id b) id) (article_table (db (snd out))) = Some a' /\
    article_table (db (snd out)) =
      map (fun b => if Nat.eqb (article_id b) id then a' else b)
          (article_table (db st)) /\
    title a' = t /\ content a' = c /\
    country a' = Some (join ", " (getlist (form req) "countries")) /\
    article_type a' = Some ty /\ download_link a' = Some dl /\
    article_id a' = article_id a /\ author a' = author a /\
    publish_date a' = publish_date a /\ source a' = source a /\
    article_categories (db (snd out)) = article_categories (db st) /\
    Article_categories (db (snd out)) a' = Article_categories (db st) a.
Proof.
  intros Hu Hfind Ha Hm Ht Hc Hty Hdl out. subst out.
  rewrite (edit_post id req st u a t c ty dl) by assumption.
  pose proof (find_article_id _ _ _ Hfind) as Hid. subst id.
  cbn [fst snd db article_table article_categories]. split; [reflexivity|].
  exists (edited_row a req t c ty dl).
  split; [apply (find_replaced _ a); [assumption|reflexivity]|].
  repeat split; reflexivity.
Qed.

(** C10.  The article type is stored as submitted, whatever the string:
    a successful POST to publish inserts a row whose [article_type] is
    the value of the [type] field, and a successful POST to edit leaves
    the article with that value; no membership in [article_types] is
    asked for. *)
Theorem article_type_stored_verbatim
    (req : Request) (st : State) (u : User) (t c ty dl : string) :
  load_user st = Some u ->
  method req = POST ->
  field_data req "title" = Some t ->
  field_data req "content" = Some c ->
  field_data req "type" = Some ty ->
  field_data req "download_link" = Some dl ->
  (forall src, field_data req "source" = Some src ->
     let out := handle_request RoutePublish req st in
     fst out = Redirect EpHome /\
     exists a', article_table (db (snd out)) = (article_table (db st) ++ [a'])%list /\
                article_type a' = Some ty) /\
  (forall id a,
     find (fun b => Nat.eqb (article_id b) id) (article_table (db st)) = Some a ->
     username u = author a ->
     let out := handle_request (RouteEdit id) req st in
     fst out = Redirect (EpArticle id) /\
     exists a', find (fun b => Nat.eqb (article_id b) id)
                     (article_table (db (snd out))) = Some a' /\
                article_type a' = Some ty).
Proof.
  intros Hu Hm Ht Hc Hty Hdl. split.
  - intros src Hsrc out. subst out.
    rewrite (publish_post req st u t c ty dl src) by assumption.
    split; [reflexivity|]. eexists. split; reflexivity.
  - intros id a Hfind Ha out. subst out.
    rewrite (edit_post id req st u a t c ty dl) by assumption.
    pose proof (find_article_id _ _ _ Hfind) as Hid. subst id.
    cbn [fst snd db article_table]. split; [reflexivity|].
    exists (edited_row a req t c ty dl).
    split; [apply (find_replaced _ a); [assumption|reflexivity]|reflexivity].
Qed.

(** ** Publishing with categories *)

Lemma next_id_fresh (ids : list nat) (n : nat) :
  In n ids -> n < next_id ids.
Proof.
  unfold next_id. induction ids as [|m ids IH]; simpl; [tauto|].
  intros [->|Hin]; [lia|]. specialize (IH Hin). lia.
Qed.

Lemma existsb_false_forall {A} (f : A -> bool) (l : list A) :
  (forall x, In x l -> f x = false) -> existsb f l = false.
Proof.
  intros Hf. induction l as [|x l IH]; simpl; [reflexivity|].
  rewrite (Hf x) by (now left). apply IH. intros y Hy. apply Hf. now right.
Qed.

Lemma filter_none {A} (f : A -> bool) (l : list A) :
  (forall x, In x l -> f x = false) -> filter f l = [].
Proof.
  intros Hf. induction l as [|x l IH]; simpl; [reflexivity|].
  rewrite (Hf x) by (now left). apply IH. intros y Hy. apply Hf. now right.
Qed.

Lemma filter_own_rows (id : nat) (l : list Category) :
  filter (fun r => Nat.eqb (fst r) id) (map (fun k => (id, category_id k)) l)
  = map (fun k => (id, category_id k)) l.
Proof.
  induction l as [|k l IH]; simpl; [reflexivity|].
  now rewrite Nat.eqb_refl, IH.
Qed.

(** Loading the relationship of a row whose association rows are one per
    member of a selection by id gives the selection back. *)
Lemma relationship_of_selection (p : nat -> bool) (id : nat)
    (cats : list Category) (c : Category) :
  In c cats ->
  existsb (fun r => Nat.eqb (fst r) id && Nat.eqb (snd r) (category_id c))
          (map (fun k => (id, category_id k))
               (filter (fun k => p (category_id k)) cats))
  = p (category_id c).
Proof.
  intros Hc. apply eq_true_iff_eq. rewrite existsb_exists. split.
  - intros [r [Hr Hm]]. apply in_map_iff in Hr as [k [<- Hk]].
    apply filter_In in Hk as [_ Hp]. simpl in Hm.
    apply andb_prop in Hm as [_ Hm]. apply Nat.eqb_eq in Hm.
    now rewrite <- Hm.
  - intros Hp. exists (id, category_id c). split.
    + apply in_map_iff. exists c. split; [reflexivity|].
      apply filter_In. now split.
    + simpl. now rewrite !Nat.eqb_refl.
Qed.

(** C8.  On a successful POST to publish, whatever list of category ids
    is submitted, the request is answered by the redirect to the home
    page and the categories of the inserted article are exactly the rows
    of the category table whose id matches one of the submitted values;
    a submitted value that matches no row adds nothing.  The association
    table refers to existing articles only, as its foreign key says and
    as every request keeps it ([handle_request_fk]). *)
Theorem publish_categories_are_existing_selected
    (req : Request) (st : State) (u : User) (t c ty dl src : string) :
  load_user st = Some u ->
  method req = POST ->
  field_data req "title" = Some t ->
  field_data req "content" = Some c ->
  field_data req "type" = Some ty ->
  field_data req "download_link" = Some dl ->
  field_data req "source" = Some src ->
  fk_article (db st) ->
  let ids := getlist (form req) "categories" in
  let selected :=
    filter (fun k => existsb (sql_int_eq_text (category_id k)) ids)
           (category_table (db st)) in
  let out := handle_request RoutePublish req st in
  fst out = Redirect EpHome /\
  exists a',
    article_table (db (snd out)) = (article_table (db st) ++ [a'])%list /\
    Article_categories (db (snd out)) a' = selected /\
    filter (fun r => Nat.eqb (fst r) (article_id a')) (article_categories (db (snd out)))
      = map (fun k => (article_id a', category_id k)) selected /\
    (forall k, In k (Article_categories (db (snd out)) a') ->
               In k (category_table (db st))).
Proof.
  intros Hu Hm Ht Hc Hty Hdl Hsrc Hfk ids selected out. subst out.
  rewrite (publish_post req st u t c ty dl src) by assumption.
  cbn [fst snd db article_table article_categories]. split; [reflexivity|].
  set (a' := published_row st req u t c ty dl src).
  assert (Hold : forall r, In r (article_categories (db st)) ->
                           Nat.eqb (fst r) (article_id a') = false).
  { intros r Hr. apply Nat.eqb_neq. apply Hfk, next_id_fresh in Hr.
    subst a'. simpl. lia. }
  assert (Hrel : Article_categories
                   (mkDB (user_table (db st)) (category_table (db st))
                         (article_table (db st) ++ [a'])
                         (article_categories (db st)
                            ++ map (fun k => (article_id a', category_id k))
                                   (Category_filter_id_in (db st) ids))) a'
                 = selected).
  { unfold Article_categories, Category_filter_id_in; simpl category_table;
      simpl article_categories. subst selected.
    apply filter_ext_in. intros k Hk. rewrite existsb_app.
    rewrite existsb_false_forall.
    - simpl orb.
      apply (relationship_of_selection
               (fun n => existsb (sql_int_eq_text n) ids)); assumption.
    - intros r Hr. now rewrite (Hold r Hr). }
  exists a'. split; [reflexivity|]. split; [exact Hrel|]. split.
  - rewrite filter_app, (filter_none _ _ Hold), filter_own_rows.
    reflexivity.
  - intros k Hk.
    assert (Hsel : In k selected) by (rewrite <- Hrel; exact Hk).
    subst selected. now apply filter_In in Hsel as [Hsel _].
Qed.

(** ** Deleting *)

Lemma delete_post (id : nat) (req : Request) (st : State) (u : User) (a : Article) :
  load_user st = Some u ->
  find (fun b => Nat.eqb (article_id b) id) (article_table (db st)) = Some a ->
  username u = author a ->
  method req = POST ->
  handle_request (RouteDelete id) req st =
  (Redirect EpHome,
   mkState
     (mkDB (user_table (db st)) (category_table (db st))
           (filter (fun b => negb (Nat.eqb (article_id b) id)) (article_table (db st)))
           (filter (fun r => negb (Nat.eqb (fst r) id)) (article_categories (db st))))
     (mkSession (session_user_id (session st))
                (flashes (session st)
                   ++ [("message", "Article deleted successfully.")]))
     (logged st)).
Proof.
  intros Hu Hfind Ha Hm.
  pose proof (find_article_id _ _ _ Hfind) as Hid.
  unfold handle_request, view_function. rewrite Hm. simpl.
  unfold delete_article. rewrite (login_required_authenticated _ _ _ Hu).
  unfold bind at 1. rewrite (Article_get_or_404_found _ _ _ Hfind).
  unfold bind at 1. rewrite (author_or_admin_author _ _ _ Hu Ha).
  cbn. now rewrite Hid.
Qed.

Lemma In_insert_desc (a x : Article) (l : list Article) :
  In x (insert_desc a l) -> x = a \/ In x l.
Proof.
  induction l as [|b l IH]; simpl.
  - intros [<-|[]]. now left.
  - destruct (Nat.leb (publish_date b) (publish_date a)); simpl.
    + intros [<-|[<-|Hx]]; auto.
    + intros [<-|Hx]; auto. destruct (IH Hx); auto.
Qed.

Lemma In_order_by_publish_date_desc (x : Article) (l : list Article) :
  In x (order_by_publish_date_desc l) -> In x l.
Proof.
  induction l as [|a l IH]; simpl; [tauto|].
  intros Hx. apply In_insert_desc in Hx as [->|Hx]; auto.
Qed.

(** C7.  A POST to the delete route by the author of an existing article
    redirects home, removes every row of the article table with that id
    and every row of the association table for that article, and keeps
    the other rows; afterwards neither the home listing nor the listing
    of any source contains an article with that id. *)
Theorem delete_removes_article_and_associations
    (id : nat) (req : Request) (st : State) (u : User) (a : Article) :
  load_user st = Some u ->
  find (fun b => Nat.eqb (article_id b) id) (article_table (db st)) = Some a ->
  username u = author a ->
  method req = POST ->
  let out := handle_request (RouteDelete id) req st in
  fst out = Redirect EpHome /\
  article_table (db (snd out)) =
    filter (fun b => negb (Nat.eqb (article_id b) id)) (article_table (db st)) /\
  article_categories (db (snd out)) =
    filter (fun r => negb (Nat.eqb (fst r) id)) (article_categories (db st)) /\
  (forall b, In b (article_table (db (snd out))) -> article_id b <> id) /\
  (forall r, In r (article_categories (db (snd out))) -> fst r <> id) /\
  (forall req', method req' = GET ->
     exists l, fst (handle_request RouteHome req' (snd out)) = Render (HomeHtml l) /\
               forall x, In x l -> article_id (fst x) <> id) /\
  (forall src req', method req' = GET ->
     exists l, fst (handle_request (RouteSource src) req' (snd out))
               = Render (SourceArticlesHtml l src) /\
               forall x, In x l -> article_id x <> id).
Proof.
  intros Hu Hfind Ha Hm out. subst out.
  rewrite (delete_post id req st u a) by assumption.
  cbn [fst snd db article_table article_categories].
  assert (Hgone : forall b,
            In b (filter (fun b => negb (Nat.eqb (article_id b) id))
                         (article_table (db st))) -> article_id b <> id).
  { intros b Hb. apply filter_In in Hb as [_ Hb].
    apply negb_true_iff in Hb. now apply Nat.eqb_neq. }
  repeat split; try reflexivity.
  - exact Hgone.
  - intros r Hr. apply filter_In in Hr as [_ Hr].
    apply negb_true_iff in Hr. now apply Nat.eqb_neq.
  - intros req' Hget. unfold handle_request, view_function. rewrite Hget.
    cbn. eexists. split; [reflexivity|].
    intros x Hx. apply in_map_iff in Hx as [b [<- Hb]]. simpl.
    apply Hgone. now apply In_order_by_publish_date_desc.
  - intros src req' Hget. unfold handle_request, view_function. rewrite Hget.
    cbn. eexists. split; [reflexivity|].
    intros x Hx. unfold Article_filter_by_source in Hx.
    apply filter_In in Hx as [Hx _]. now apply Hgone.
Qed.

(** ** The country list: join on publish, split on edit *)

Lemma append_empty_r (s : string) : s ++ "" = s.
Proof. induction s as [|c s IH]; simpl; [reflexivity|now rewrite IH]. Qed.

Lemma append_snoc (s t : string) (c : ascii) :
  (s ++ String c "") ++ t = s ++ String c t.
Proof. induction s as [|d s IH]; simpl; [reflexivity|now rewrite IH]. Qed.

Lemma split_from_cons (sep cur s : string) (c : ascii) :
  split_from sep 0 cur (String c s) =
  if String.prefix sep (String c s)
  then cur :: split_from sep (String.length sep - 1) "" s
  else split_from sep 0 (cur ++ String c "") s.
Proof. reflexivity. Qed.

Lemma prefix_cons (a b : ascii) (s1 s2 : string) :
  String.prefix (String a s1) (String b s2) =
  if ascii_dec a b then String.prefix s1 s2 else false.
Proof. reflexivity. Qed.

Lemma prefix_empty (s : string) : String.prefix "" s = true.
Proof. now destruct s. Qed.

Lemma prefix_sep_here (r : string) :
  String.prefix ", " (String "," (String " " r)) = true.
Proof.
  rewrite !prefix_cons.
  destruct (ascii_dec "," ","); [|congruence].
  destruct (ascii_dec " " " "); [|congruence].
  apply prefix_empty.
Qed.

(** No occurrence of the separator starts on the last character of a
    piece that is followed by the separator. *)
Lemma prefix_sep_piece (c : ascii) (x r : string) :
  String.prefix ", " (String c x) = false ->
  String.prefix ", " (String c (x ++ ", " ++ r)) = false.
Proof.
  rewrite !prefix_cons. destruct (ascii_dec "," c) as [_|_]; [|reflexivity].
  destruct x as [|d x]; cbn [append].
  - intros _. rewrite prefix_cons. now destruct (ascii_dec " " ",").
  - rewrite !prefix_cons. destruct (ascii_dec " " d); [|reflexivity].
    now rewrite !prefix_empty.
Qed.

Lemma contains_cons (sub : string) (c : ascii) (s : string) :
  contains sub (String c s) = String.prefix sub (String c s) || contains sub s.
Proof. reflexivity. Qed.

Lemma contains_cons_false (sub : string) (c : ascii) (s : string) :
  contains sub (String c s) = false ->
  String.prefix sub (String c s) = false /\ contains sub s = false.
Proof. rewrite contains_cons. intros Hc. now apply orb_false_elim in Hc. Qed.

(** A piece without the separator is cut off whole at the separator that
    follows it ... *)
Lemma split_from_piece (x r cur : string) :
  contains ", " x = false ->
  split_from ", " 0 cur (x ++ ", " ++ r) = (cur ++ x) :: split_from ", " 0 "" r.
Proof.
  revert cur. induction x as [|c x IH]; intros cur Hx.
  - change ("" ++ ", " ++ r) with (String "," (String " " r)).
    rewrite split_from_cons, prefix_sep_here, append_empty_r. reflexivity.
  - apply contains_cons_false in Hx as [Hp Hx].
    change (String c x ++ ", " ++ r) with (String c (x ++ ", " ++ r)).
    rewrite split_from_cons, (prefix_sep_piece _ _ _ Hp), (IH _ Hx).
    now rewrite append_snoc.
Qed.

(** ... and is the last piece when nothing follows. *)
Lemma split_from_last (x cur : string) :
  contains ", " x = false ->
  split_from ", " 0 cur x = [cur ++ x].
Proof.
  revert cur. induction x as [|c x IH]; intros cur Hx.
  - simpl. now rewrite append_empty_r.
  - apply contains_cons_false in Hx as [Hp Hx].
    rewrite split_from_cons, Hp, (IH _ Hx). now rewrite append_snoc.
Qed.

(** Splitting undoes joining on a non-empty list of names none of which
    contains the separator. *)
Lemma split_join (x : string) (l : list string) :
  Forall (fun y => contains ", " y = false) (x :: l) ->
  split ", " (join ", " (x :: l)) = x :: l.
Proof.
  unfold split, join. revert x. induction l as [|y l IH]; intros x Hall.
  - simpl. apply split_from_last. now inversion Hall.
  - inversion Hall as [|? ? Hx Hl]; subst.
    change (String.concat ", " (x :: y :: l))
      with (x ++ ", " ++ String.concat ", " (y :: l)).
    rewrite (split_from_piece _ _ _ Hx). simpl append. now rewrite IH.
Qed.

Lemma join_empty (l : list string) :
  join ", " l = "" -> l = [] \/ l = [""].
Proof.
  destruct l as [|x [|y l]]; simpl; auto.
  - intros ->. now right.
  - destruct x; discriminate.
Qed.

(** The round trip on names free of the separator: what publish stores
    for the list [l] is read back by the edit form as [l], unless [l] is
    the single empty name. *)
Lemma selected_countries_of_joined (a : Article) (l : list string) :
  Forall (fun y => contains ", " y = false) l ->
  l <> [""] ->
  country a = Some (join ", " l) ->
  selected_countries a = l.
Proof.
  intros Hall Hne Hc. unfold selected_countries. rewrite Hc. simpl truthy.
  destruct (String.eqb_spec (join ", " l) "") as [E|E]; simpl.
  - destruct (join_empty _ E); congruence.
  - destruct l as [|x l]; [now elim E|]. now apply split_join.
Qed.

(** ** Registration *)

(** The register route, case by case. *)
Lemma register_cases (req : Request) (st : State) :
  handle_request RouteRegister req st =
  match load_user st with
  | Some _ => (Redirect EpHome, st)
  | None =>
      match method req with
      | GET => (Render (RegisterHtml no_errors), st)
      | POST =>
          let e := RegistrationForm_validate (db st) req in
          if is_valid e then
            match field_data req "username", field_data req "password" with
            | Some uname, Some pw =>
                (Redirect EpLogin,
                 registered st uname (generate_password_hash pw (salt req)))
            | _, _ => (Render (RegisterHtml e), st)
            end
          else (Render (RegisterHtml e), st)
      end
  end.
Proof.
  unfold handle_request, view_function, register, validate_on_submit,
    current_user, bind, gets, ret.
  destruct (method req); cbn beta iota delta [existsb methods Method_eqb orb];
    destruct (load_user st); cbn [is_authenticated fst snd]; try reflexivity.
  destruct (is_valid (RegistrationForm_validate (db st) req)); [|reflexivity].
  destruct (field_data req "username"); [|reflexivity].
  destruct (field_data req "password"); reflexivity.
Qed.

Lemma username_chain_taken (d : DB) (uname : string) (u : User) :
  User_filter_by_username_first d uname = Some u ->
  run_validation_chain [DataRequired; validate_username d] (Some uname) <> [].
Proof.
  intros Hu. unfold run_validation_chain, validate_username. rewrite Hu.
  destruct (DataRequired (Some uname)); discriminate.
Qed.

Lemma username_chain_free (d : DB) (uname : string) :
  run_validation_chain [DataRequired; validate_username d] (Some uname) = [] ->
  User_filter_by_username_first d uname = None.
Proof.
  unfold run_validation_chain, validate_username.
  destruct (DataRequired (Some uname)); try discriminate.
  now destruct (User_filter_by_username_first d uname).
Qed.

Lemma is_valid_username_errors (e : FormErrors) :
  is_valid e = true -> username_errors e = [].
Proof.
  unfold is_valid. destruct (csrf_token_errors e); [|discriminate].
  now destruct (username_errors e).
Qed.

Lemma username_taken_first (d : DB) (uname : string) :
  In uname (map username (user_table d)) ->
  exists u, User_filter_by_username_first d uname = Some u.
Proof.
  unfold User_filter_by_username_first. intros Hin.
  apply in_map_iff in Hin as [u [Hu Hin]].
  destruct (find (fun v => username v =? uname) (user_table d)) eqn:E.
  - now exists u0.
  - apply (find_none _ _ E) in Hin. rewrite Hu, String.eqb_refl in Hin.
    discriminate.
Qed.

Lemma username_free_not_in (d : DB) (uname : string) :
  User_filter_by_username_first d uname = None ->
  ~ In uname (map username (user_table d)).
Proof.
  intros Hnone Hin. apply username_taken_first in Hin as [u Hu]. congruence.
Qed.

Lemma NoDup_snoc {A} (l : list A) (x : A) :
  NoDup l -> ~ In x l -> NoDup (l ++ [x]).
Proof.
  induction l as [|y l IH]; simpl; intros Hl Hx.
  - constructor; [tauto|constructor].
  - inversion Hl as [|? ? Hy Hl']; subst. constructor.
    + rewrite in_app_iff. simpl. intros [Hin|[->|[]]]; tauto.
    + apply IH; tauto.
Qed.

(** C4.  Registration keeps the usernames of the user table free of
    duplicates.  A request whose username is that of an existing user
    adds no user row, whoever sends it; sent as a POST by a requester who
    is not logged in, it fails validation and the form is rendered again
    with an error on the username field. *)
Theorem register_keeps_usernames_unique
    (req : Request) (st : State) :
  NoDup (map username (user_table (db st))) ->
  let out := handle_request RouteRegister req st in
  NoDup (map username (user_table (db (snd out)))) /\
  (forall uname,
     field_data req "username" = Some uname ->
     In uname (map username (user_table (db st))) ->
     user_table (db (snd out)) = user_table (db st) /\
     (load_user st = None -> method req = POST ->
      exists e, fst out = Render (RegisterHtml e) /\
                is_valid e = false /\ username_errors e <> [])).
Proof.
  intros Hnd out. subst out. rewrite register_cases.
  destruct (load_user st) as [u|] eqn:Hu.
  { split; [exact Hnd|]. intros uname _ _. split; [reflexivity|discriminate]. }
  destruct (method req) eqn:Hm.
  { split; [exact Hnd|]. intros uname _ _. split; [reflexivity|discriminate]. }
  cbv zeta.
  destruct (is_valid (RegistrationForm_validate (db st) req)) eqn:Hv.
  - apply is_valid_username_errors in Hv. simpl in Hv.
    destruct (field_data req "username") as [uname|] eqn:Hn.
    + apply username_chain_free, username_free_not_in in Hv.
      destruct (field_data req "password") as [pw|].
      * split.
        -- cbn [snd registered db user_table]. rewrite map_app. simpl map.
           now apply NoDup_snoc.
        -- intros uname' [= <-] Hin. contradiction.
      * split; [exact Hnd|]. intros uname' [= <-] Hin. contradiction.
    + split; [exact Hnd|]. discriminate.
  - split; [exact Hnd|]. intros uname Hn Hin. split; [reflexivity|].
    intros _ _. eexists. split; [reflexivity|]. split; [exact Hv|].
    simpl. rewrite Hn.
    destruct (username_taken_first _ _ Hin) as [u Hfirst].
    now apply (username_chain_taken _ _ u).
Qed.

(** ** Login after registration *)

Ltac unfold_views :=
  unfold handle_request, handle_exception, view_function,
    login, logout, home, publish, article, edit_article, articles_by_source,
    delete_article, login_required, unauthorized, author_or_admin,
    current_user_username, current_user_is_admin, current_user,
    Article_get_or_404, getitem, flash, flash_as, login_user, logout_user,
    db_session_add_article, db_session_flush_article, db_session_delete,
    db_session_commit, bind, ret, raise, gets, modify, with_db, with_session.

Ltac split_cases :=
  repeat (cbn beta iota;
          match goal with
          | |- context [match ?x with _ => _ end] =>
              lazymatch x with
              | context [match _ with _ => _ end] => fail
              | _ => destruct x
              end
          end).

(** No request removes or rewrites a user row: the user table only grows
    at its end. *)
Lemma user_table_grows (r : Route) (req : Request) (st : State) :
  exists l, user_table (db (snd (handle_request r req st)))
            = (user_table (db st) ++ l)%list.
Proof.
  destruct r.
  1: { rewrite register_cases.
       destruct (load_user st); [exists []; now rewrite app_nil_r|].
       destruct (method req); [exists []; now rewrite app_nil_r|].
       cbv zeta. destruct (is_valid _); [|exists []; now rewrite app_nil_r].
       destruct (field_data req "username"); [|exists []; now rewrite app_nil_r].
       destruct (field_data req "password"); [|exists []; now rewrite app_nil_r].
       eexists. reflexivity. }
  all: exists []; rewrite app_nil_r; unfold_views;
    destruct (method req); cbn [existsb methods Method_eqb orb];
    split_cases; reflexivity.
Qed.

Lemma reachable_user_table (st st' : State) :
  reachable st st' ->
  exists l, user_table (db st') = (user_table (db st) ++ l)%list.
Proof.
  induction 1 as [|st' r req _ [l IH]|st' s _ [l IH]].
  - exists []. now rewrite app_nil_r.
  - destruct (user_table_grows r req st') as [l' Hl'].
    exists (l ++ l')%list. now rewrite Hl', IH, app_assoc.
  - now exists l.
Qed.

Lemma find_app_some {A} (f : A -> bool) (l l' : list A) (x : A) :
  find f l = Some x -> find f (l ++ l') = Some x.
Proof.
  induction l as [|y l IH]; simpl; [discriminate|].
  destruct (f y); auto.
Qed.

Lemma find_snoc_none {A} (f : A -> bool) (l : list A) (x : A) :
  find f l = None -> f x = true -> find f (l ++ [x]) = Some x.
Proof.
  induction l as [|y l IH]; simpl.
  - now intros _ ->.
  - destruct (f y); [discriminate|auto].
Qed.

(** The login route on a POST carrying both fields, for a username with
    a row in the user table. *)
Lemma login_post (req : Request) (st : State) (uname pw : string) (u : User) :
  method req = POST ->
  field_data req "username" = Some uname ->
  field_data req "password" = Some pw ->
  User_filter_by_username_first (db st) uname = Some u ->
  handle_request RouteLogin req st =
  if check_password_hash (password_hash u) pw
  then (Redirect EpHome,
        mkState (db st) (mkSession (Some (user_id u)) (flashes (session st)))
                (logged st))
  else (Render LoginHtml,
        mkState (db st)
                (mkSession (session_user_id (session st))
                           (flashes (session st)
                              ++ [("message", "Invalid username or password")]))
                (logged st)).
Proof.
  intros Hm Hn Hp Hu.
  unfold handle_request, view_function. rewrite Hm.
  cbn [existsb methods Method_eqb orb].
  unfold login. rewrite Hm, (getitem_field _ _ _ Hn), (getitem_field _ _ _ Hp).
  unfold bind, gets, ret. cbv beta iota. rewrite Hu.
  now destruct (check_password_hash (password_hash u) pw).
Qed.

(** C5.  With a hash whose check accepts exactly the password that was
    hashed, and whose output differs from its input: after a successful
    registration the row stored for the username holds
    [generate_password_hash] of the submitted password, not the
    password; and in every later state a login POST for that username
    is answered by the redirect home, and logs the user in, exactly when
    the submitted password is the one given at registration. *)
Theorem login_iff_registration_password
    (Hcheck : forall p s q,
        check_password_hash (generate_password_hash p s) q = true <-> p = q)
    (Hhash : forall p s, generate_password_hash p s <> p)
    (req : Request) (st st1 : State) (uname pw : string) :
  handle_request RouteRegister req st = (Redirect EpLogin, st1) ->
  field_data req "username" = Some uname ->
  field_data req "password" = Some pw ->
  exists row,
    User_filter_by_username_first (db st1) uname = Some row /\
    password_hash row = generate_password_hash pw (salt req) /\
    password_hash row <> pw /\
    forall (st2 : State) (req2 : Request) (q : string),
      reachable st1 st2 ->
      method req2 = POST ->
      field_data req2 "username" = Some uname ->
      field_data req2 "password" = Some q ->
      let out := handle_request RouteLogin req2 st2 in
      (fst out = Redirect EpHome <-> q = pw) /\
      (q = pw -> session_user_id (session (snd out)) = Some (user_id row)) /\
      (q <> pw -> fst out = Render LoginHtml /\
                  session_user_id (session (snd out))
                  = session_user_id (session st2)).
Proof.
  intros Hreg Hn Hp. rewrite register_cases, Hn, Hp in Hreg.
  destruct (load_user st); [discriminate|].
  destruct (method req); [discriminate|]. cbv zeta in Hreg.
  destruct (is_valid (RegistrationForm_validate (db st) req)) eqn:Hv;
    [|discriminate].
  injection Hreg as <-.
  apply is_valid_username_errors in Hv. simpl in Hv. rewrite Hn in Hv.
  apply username_chain_free in Hv.
  set (row := mkUser (next_id (map user_id (user_table (db st)))) uname
                     (generate_password_hash pw (salt req))).
  assert (Hrow : User_filter_by_username_first
                   (db (registered st uname (generate_password_hash pw (salt req))))
                   uname = Some row).
  { unfold User_filter_by_username_first. cbn [registered db user_table].
    apply find_snoc_none; [exact Hv|]. simpl. apply String.eqb_refl. }
  exists row. split; [exact Hrow|]. split; [reflexivity|].
  split; [apply Hhash|].
  intros st2 req2 q Hreach Hm2 Hn2 Hp2 out. subst out.
  destruct (reachable_user_table _ _ Hreach) as [l Hl].
  assert (Hrow2 : User_filter_by_username_first (db st2) uname = Some row).
  { unfold User_filter_by_username_first in *. rewrite Hl.
    now apply find_app_some. }
  rewrite (login_post req2 st2 uname q row Hm2 Hn2 Hp2 Hrow2).
  cbn [password_hash row].
  destruct (check_password_hash (generate_password_hash pw (salt req)) q) eqn:E.
  - apply Hcheck in E. subst q. cbn.
    split; [tauto|]. split; [reflexivity|]. intros Hne. now elim Hne.
  - assert (Hne : q <> pw).
    { intros ->. assert (Ht : pw = pw) by reflexivity.
      apply (Hcheck pw (salt req) pw) in Ht. congruence. }
    cbn. split; [split; [discriminate|tauto]|].
    split; [tauto|]. intros _. split; reflexivity.
Qed.

(** ** The foreign key of the association table is an invariant *)

Lemma fk_add (d : DB) (a : Article) (ks : list Category)
    (us : list User) (cs : list Category) :
  fk_article d ->
  fk_article (mkDB us cs (article_table d ++ [a])
                   (article_categories d
                      ++ map (fun k => (article_id a, category_id k)) ks)).
Proof.
  unfold fk_article. cbn [article_table article_categories].
  intros Hfk r Hr. rewrite map_app, in_app_iff. apply in_app_iff in Hr as [Hr|Hr].
  - left. now apply Hfk.
  - right. apply in_map_iff in Hr as [k [<- _]]. now left.
Qed.

Lemma fk_flush (d : DB) (a : Article) (us : list User) (cs : list Category) :
  fk_article d ->
  fk_article (mkDB us cs
                   (map (fun b => if Nat.eqb (article_id b) (article_id a)
                                  then a else b) (article_table d))
                   (article_categories d)).
Proof.
  unfold fk_article. cbn [article_table article_categories].
  intros Hfk r Hr. rewrite map_map.
  erewrite map_ext; [apply Hfk, Hr|].
  intros b. simpl. destruct (Nat.eqb_spec (article_id b) (article_id a)); auto.
Qed.

Lemma fk_delete (d : DB) (a : Article) (us : list User) (cs : list Category) :
  fk_article d ->
  fk_article (mkDB us cs
                   (filter (fun b => negb (Nat.eqb (article_id b) (article_id a)))
                           (article_table d))
                   (filter (fun r => negb (Nat.eqb (fst r) (article_id a)))
                           (article_categories d))).
Proof.
  unfold fk_article. cbn [article_table article_categories].
  intros Hfk r Hr. apply filter_In in Hr as [Hr Hne].
  apply Hfk, in_map_iff in Hr as [b [Hb Hin]].
  apply in_map_iff. exists b. split; [exact Hb|].
  apply filter_In. split; [exact Hin|]. now rewrite Hb.
Qed.

Lemma handle_request_fk (r : Route) (req : Request) (st : State) :
  fk_article (db st) -> fk_article (db (snd (handle_request r req st))).
Proof.
  intros Hfk. destruct r.
  1: { rewrite register_cases.
       destruct (load_user st); [exact Hfk|].
       destruct (method req); [exact Hfk|].
       cbv zeta. destruct (is_valid _); [|exact Hfk].
       destruct (field_data req "username"); [|exact Hfk].
       destruct (field_data req "password"); exact Hfk. }
  all: unfold_views;
    destruct (method req); cbn [existsb methods Method_eqb orb];
    split_cases; cbn [snd db];
    first [exact Hfk | apply fk_add, Hfk | apply fk_flush, Hfk
          | apply fk_delete, Hfk].
Qed.

Lemma reachable_fk (st st' : State) :
  reachable st st' -> fk_article (db st) -> fk_article (db st').
Proof.
  induction 1 as [|st' r req _ IH|st' s _ IH]; intros Hfk; auto.
  now apply handle_request_fk, IH.
Qed.

(** ** Routes behind [login_required] and the register route *)

(** C6.  A request to the publish route by a requester who is not logged
    in is answered by a redirect to the home page, with the flash message
    of the unauthorized handler added; the database, so the article
    table, is unchanged. *)
Theorem publish_unauthenticated_redirects
    (req : Request) (st : State) :
  load_user st = None ->
  let out := handle_request RoutePublish req st in
  fst out = Redirect EpHome /\
  db (snd out) = db st /\
  article_table (db (snd out)) = article_table (db st) /\
  flashes (session (snd out)) =
    (flashes (session st)
       ++ [("message", "You need to be logged in to view that page.")])%list.
Proof.
  intros Hu out. subst out.
  unfold handle_request, view_function.
  assert (Hp : publish req st = unauthorized st).
  { unfold publish. now apply login_required_anonymous. }
  destruct (method req); simpl; rewrite Hp; cbn; auto.
Qed.

(** C9.  A request to the register route, GET or POST, by a requester
    who is logged in is answered by a redirect to the home page and
    leaves the whole state as it was: no user row is added and the form
    is neither validated nor rendered. *)
Theorem register_authenticated_redirects
    (req : Request) (st : State) (u : User) :
  load_user st = Some u ->
  handle_request RouteRegister req st = (Redirect EpHome, st).
Proof.
  intros Hu. unfold handle_request, view_function.
  assert (Hr : register req st = Ok (Redirect EpHome) st).
  { unfold register, bind, current_user, gets. now rewrite Hu. }
  destruct (method req); simpl; now rewrite Hr.
Qed.

End Properties.

(** * Further properties of the views *)

Section Further.
Context `{External}.

Ltac split_cases_eqn :=
  repeat (cbn beta iota;
          match goal with
          | |- context [match ?x with _ => _ end] =>
              lazymatch x with
              | context [match _ with _ => _ end] => fail
              | _ => destruct x eqn:?
              end
          end).

Ltac unfold_all_views :=
  unfold handle_request, handle_exception, view_function,
    login, logout, home, publish, article, edit_article, articles_by_source,
    delete_article, login_required, unauthorized, author_or_admin,
    current_user_username, current_user_is_admin, current_user,
    Article_get_or_404, getitem, flash, flash_as, login_user, logout_user,
    db_session_add_article, db_session_flush_article, db_session_delete,
    db_session_commit, bind, ret, raise, gets, modify, with_db, with_session.

(** ** What a request can write *)

Lemma load_user_in (st : State) (u : User) :
  load_user st = Some u -> In u (user_table (db st)).
Proof.
  unfold load_user, User_get. destruct (session_user_id (session st)); [|discriminate].
  intros Hf. now apply find_some in Hf.
Qed.

Lemma handle_request_writes (r : Route) (req : Request) (st : State) :
  writes st (db (snd (handle_request r req st))).
Proof.
  destruct r.
  1: { rewrite register_cases.
       destruct (load_user st); [constructor|].
       destruct (method req); [constructor|]. cbv zeta.
       destruct (is_valid _) eqn:Hv; [|constructor].
       destruct (field_data req "username") as [uname|] eqn:Hn; [|constructor].
       destruct (field_data req "password"); [|constructor].
       apply is_valid_username_errors in Hv. simpl in Hv. rewrite Hn in Hv.
       apply username_chain_free in Hv. now apply writes_user. }
  all: unfold_all_views;
    destruct (method req); cbn [existsb methods Method_eqb orb];
    split_cases_eqn; cbn [snd db];
    try apply writes_nothing.
  - match goal with
    | Hu : load_user st = Some ?v |- _ =>
        eapply (writes_article st v); [exact Hu|reflexivity|reflexivity|]
    end.
    intros k Hk. cbn in Hk. unfold Category_filter_id_in in Hk.
    now apply filter_In in Hk.
  - match goal with
    | Hf : find _ _ = Some ?a |- _ =>
        apply find_some in Hf as [Hin _];
        apply (writes_update st a); [exact Hin|reflexivity|reflexivity]
    end.
  - apply writes_delete.
Qed.

(** ** Invariants of the tables *)

Lemma map_article_id_replace (a' : Article) (l : list Article) :
  map article_id
      (map (fun b => if Nat.eqb (article_id b) (article_id a') then a' else b) l)
  = map article_id l.
Proof.
  rewrite map_map. apply map_ext. intros b.
  destruct (Nat.eqb_spec (article_id b) (article_id a')); auto.
Qed.

Lemma map_article_id_filter (n : nat) (l : list Article) :
  map article_id (filter (fun b => negb (Nat.eqb (article_id b) n)) l)
  = filter (fun m => negb (Nat.eqb m n)) (map article_id l).
Proof.
  induction l as [|b l IH]; simpl; [reflexivity|].
  destruct (Nat.eqb (article_id b) n); simpl; now rewrite IH.
Qed.

Lemma fresh_not_in (ids : list nat) : ~ In (next_id ids) ids.
Proof. intros Hin. apply next_id_fresh in Hin. lia. Qed.

Lemma writes_user_ids (st : State) (d : DB) :
  writes st d ->
  NoDup (map user_id (user_table (db st))) -> NoDup (map user_id (user_table d)).
Proof.
  intros W Hnd. destruct W; cbn [registered db user_table]; auto.
  rewrite map_app. apply NoDup_snoc; [exact Hnd|apply fresh_not_in].
Qed.

Lemma writes_usernames (st : State) (d : DB) :
  writes st d ->
  NoDup (map username (user_table (db st))) -> NoDup (map username (user_table d)).
Proof.
  intros W Hnd. destruct W; cbn [registered db user_table]; auto.
  rewrite map_app. apply NoDup_snoc; [exact Hnd|].
  now apply username_free_not_in.
Qed.

Lemma writes_article_ids (st : State) (d : DB) :
  writes st d ->
  NoDup (map article_id (article_table (db st))) ->
  NoDup (map article_id (article_table d)).
Proof.
  intros W Hnd. destruct W as [|uname pwhash _|u a ks _ _ Hid _|a a' _ _ _|a];
    cbn [registered db article_table]; auto.
  - rewrite map_app. simpl map. rewrite Hid.
    apply NoDup_snoc; [exact Hnd|apply fresh_not_in].
  - now rewrite map_article_id_replace.
  - rewrite map_article_id_filter. now apply NoDup_filter.
Qed.

Lemma writes_authors (st : State) (d : DB) :
  writes st d -> authors_registered (db st) -> authors_registered d.
Proof.
  unfold authors_registered.
  intros W Hreg. destruct W as [|uname pwhash _|u a ks Hu Hau _ _|a a' Hin _ Hau|a];
    cbn [registered db article_table user_table]; auto.
  - intros a Ha. rewrite map_app, in_app_iff. left. now apply Hreg.
  - intros b Hb. apply in_app_iff in Hb as [Hb|[<-|[]]]; [now apply Hreg|].
    rewrite Hau. apply in_map. now apply load_user_in.
  - intros b Hb. apply in_map_iff in Hb as [c [<- Hc]].
    destruct (Nat.eqb (article_id c) (article_id a')); [|now apply Hreg].
    rewrite Hau. now apply Hreg.
  - intros b Hb. apply filter_In in Hb as [Hb _]. now apply Hreg.
Qed.

Lemma writes_categories (st : State) (d : DB) :
  writes st d -> category_table d = category_table (db st).
Proof. intros W. now destruct W. Qed.

Lemma writes_fk_article (st : State) (d : DB) :
  writes st d -> fk_article (db st) -> fk_article d.
Proof.
  intros W Hfk. destruct W; auto.
  - now apply fk_add.
  - now apply fk_flush.
  - now apply fk_delete.
Qed.

Lemma writes_fk_category (st : State) (d : DB) :
  writes st d -> fk_category (db st) -> fk_category d.
Proof.
  unfold fk_category.
  intros W Hfk. destruct W as [|uname pwhash _|u a ks _ _ _ Hks|a a' _ _ _|a];
    cbn [registered db article_categories category_table]; auto.
  - intros r Hr. apply in_app_iff in Hr as [Hr|Hr]; [now apply Hfk|].
    apply in_map_iff in Hr as [k [<- Hk]]. simpl. apply in_map. now apply Hks.
  - intros r Hr. apply filter_In in Hr as [Hr _]. now apply Hfk.
Qed.

(** X1.  Primary keys stay unique: if no two user rows share an id and
    no two article rows share an id before a request, the same holds
    after it, whatever the route and the request. *)
Theorem primary_keys_stay_unique (r : Route) (req : Request) (st : State) :
  NoDup (map user_id (user_table (db st))) ->
  NoDup (map article_id (article_table (db st))) ->
  let d := db (snd (handle_request r req st)) in
  NoDup (map user_id (user_table d)) /\
  NoDup (map article_id (article_table d)).
Proof.
  intros Hu Ha d. subst d. pose proof (handle_request_writes r req st) as W.
  split; [now apply (writes_user_ids st)|now apply (writes_article_ids st)].
Qed.

(** X2.  Every article names a registered user as its author, and every
    request keeps it so: publish takes the author from the logged-in
    user, edit does not touch it, and no route removes a user. *)
Theorem authors_stay_registered (r : Route) (req : Request) (st : State) :
  authors_registered (db st) ->
  authors_registered (db (snd (handle_request r req st))).
Proof.
  intros Hreg. apply (writes_authors st); [apply handle_request_writes|exact Hreg].
Qed.

(** X3.  Both foreign keys of the association table are kept by every
    request: each row refers to an existing article and to an existing
    category. *)
Theorem foreign_keys_stay_valid (r : Route) (req : Request) (st : State) :
  fk_article (db st) -> fk_category (db st) ->
  let d := db (snd (handle_request r req st)) in
  fk_article d /\ fk_category d.
Proof.
  intros Ha Hc d. subst d. pose proof (handle_request_writes r req st) as W.
  split; [now apply (writes_fk_article st)|now apply (writes_fk_category st)].
Qed.

(** X4.  No route creates, changes or removes a category: the category
    table is the same after every request. *)
Theorem category_table_never_changes (r : Route) (req : Request) (st : State) :
  category_table (db (snd (handle_request r req st))) = category_table (db st).
Proof. apply (writes_categories st), handle_request_writes. Qed.

(** X5.  Through the routes alone, starting from the empty tables of a
    new database: usernames, user ids and article ids are unique, the
    association rows refer to existing rows, every author is a
    registered user, and the category table is still empty, so that no
    article has a category. *)
Theorem fresh_database_invariants (s : Session) (lg : list string) (st : State) :
  reachable (mkState fresh_db s lg) st ->
  NoDup (map username (user_table (db st))) /\
  NoDup (map user_id (user_table (db st))) /\
  NoDup (map article_id (article_table (db st))) /\
  fk_article (db st) /\
  authors_registered (db st) /\
  category_table (db st) = [] /\
  article_categories (db st) = [] /\
  forall a, Article_categories (db st) a = [].
Proof.
  intros Hreach.
  assert (Hinv : NoDup (map username (user_table (db st))) /\
                 NoDup (map user_id (user_table (db st))) /\
                 NoDup (map article_id (article_table (db st))) /\
                 fk_article (db st) /\ fk_category (db st) /\
                 authors_registered (db st) /\
                 category_table (db st) = []).
  { induction Hreach as [|st' r req _ IH|st' s' _ IH].
    - cbn. repeat split; try constructor; intros ? [].
    - destruct IH as (I1 & I2 & I3 & I4 & I5 & I6 & I7).
      pose proof (handle_request_writes r req st') as W.
      repeat split.
      + now apply (writes_usernames st').
      + now apply (writes_user_ids st').
      + now apply (writes_article_ids st').
      + now apply (writes_fk_article st').
      + now apply (writes_fk_category st').
      + now apply (writes_authors st').
      + now rewrite (writes_categories st' _ W).
    - exact IH. }
  destruct Hinv as (I1 & I2 & I3 & I4 & I5 & I6 & I7).
  assert (Hj : article_categories (db st) = []).
  { destruct (article_categories (db st)) as [|r l] eqn:E; [reflexivity|].
    assert (Hr : In (snd r) (map category_id (category_table (db st)))).
    { apply I5. rewrite E. now left. }
    rewrite I7 in Hr. destruct Hr. }
  repeat split; auto.
  intros a. unfold Article_categories. now rewrite I7.
Qed.

(** ** Sessions: the login gate, login and logout *)

Lemma anonymous_request (r : Route) (req : Request) (st : State) :
  login_protected r = true ->
  method_allowed r req = true ->
  load_user st = None ->
  handle_request r req st
  = (Redirect EpHome, flashed st "You need to be logged in to view that page.").
Proof.
  unfold method_allowed. intros Hp Hm Hu.
  unfold handle_request, view_function. rewrite Hm.
  destruct r; try discriminate Hp;
    unfold logout, publish, edit_article, delete_article;
    now rewrite (login_required_anonymous _ _ Hu).
Qed.

(** X6.  Every route behind [login_required] (logout, publish, edit,
    delete) answers a requester who is not logged in with the redirect
    home and the message of the unauthorized handler, and changes
    nothing else; for edit and delete this comes before the article is
    looked up, so it holds for ids that do not exist as well. *)
Theorem anonymous_is_redirected (r : Route) (req : Request) (st : State) :
  login_protected r = true ->
  method_allowed r req = true ->
  load_user st = None ->
  let out := handle_request r req st in
  fst out = Redirect EpHome /\
  db (snd out) = db st /\
  session_user_id (session (snd out)) = session_user_id (session st) /\
  flashes (session (snd out)) =
    (flashes (session st)
       ++ [("message", "You need to be logged in to view that page.")])%list.
Proof.
  intros Hp Hm Hu out. subst out.
  rewrite (anonymous_request r req st Hp Hm Hu). repeat split.
Qed.

Lemma logout_request (req : Request) (st : State) (u : User) :
  load_user st = Some u ->
  method req = GET ->
  handle_request RouteLogout req st
  = (Redirect EpHome,
     mkState (db st) (mkSession None (flashes (session st))) (logged st)).
Proof.
  intros Hu Hm. unfold handle_request, view_function. rewrite Hm.
  cbn [existsb methods Method_eqb orb].
  unfold logout. now rewrite (login_required_authenticated _ _ _ Hu).
Qed.

(** X7.  Logout by a logged-in requester redirects home, forgets the
    user and touches neither the database nor the flashed messages;
    after it the requester is anonymous, and a request to any route
    behind [login_required] is turned away. *)
Theorem logout_ends_session (req : Request) (st : State) (u : User) :
  load_user st = Some u ->
  method req = GET ->
  let out := handle_request RouteLogout req st in
  fst out = Redirect EpHome /\
  db (snd out) = db st /\
  flashes (session (snd out)) = flashes (session st) /\
  load_user (snd out) = None /\
  forall r req', login_protected r = true -> method_allowed r req' = true ->
                 fst (handle_request r req' (snd out)) = Redirect EpHome /\
                 db (snd (handle_request r req' (snd out))) = db st.
Proof.
  intros Hu Hm out. subst out. rewrite (logout_request req st u Hu Hm).
  cbn [fst snd db session flashes].
  do 4 (split; [reflexivity|]).
  intros r req' Hp Hm'. now rewrite anonymous_request.
Qed.

Lemma find_user_by_id (l : list User) (u : User) :
  NoDup (map user_id l) -> In u l ->
  find (fun v => Nat.eqb (user_id v) (user_id u)) l = Some u.
Proof.
  induction l as [|v l IH]; simpl; [tauto|].
  intros Hnd [->|Hin]; [now rewrite Nat.eqb_refl|].
  inversion Hnd as [|? ? Hv Hl]; subst.
  destruct (Nat.eqb_spec (user_id v) (user_id u)) as [E|E]; [|auto].
  elim Hv. rewrite E. now apply in_map.
Qed.

(** X8.  With unique user ids, a login POST whose password passes the
    hash check for the row found under the submitted username redirects
    home and leaves the database alone; from then on the requester is
    that user, so that the publish page is rendered instead of the
    redirect of the login gate. *)
Theorem login_opens_session
    (req : Request) (st : State) (uname pw : string) (u : User) :
  NoDup (map user_id (user_table (db st))) ->
  method req = POST ->
  field_data req "username" = Some uname ->
  field_data req "password" = Some pw ->
  User_filter_by_username_first (db st) uname = Some u ->
  check_password_hash (password_hash u) pw = true ->
  let out := handle_request RouteLogin req st in
  fst out = Redirect EpHome /\
  db (snd out) = db st /\
  load_user (snd out) = Some u /\
  forall req', method req' = GET ->
    handle_request RoutePublish req' (snd out)
    = (Render (PublishHtml (category_table (db st)) pycountry_countries
                           article_types), snd out).
Proof.
  intros Hnd Hm Hn Hp Hu Hc out. subst out.
  rewrite (login_post req st uname pw u Hm Hn Hp Hu), Hc.
  cbn [fst snd db].
  assert (Hload : load_user (mkState (db st)
                     (mkSession (Some (user_id u)) (flashes (session st)))
                     (logged st)) = Some u).
  { unfold load_user, User_get. cbn [session session_user_id db].
    apply find_user_by_id; [exact Hnd|].
    unfold User_filter_by_username_first in Hu. now apply find_some in Hu. }
  repeat split; [exact Hload|].
  intros req' Hget. unfold handle_request, view_function. rewrite Hget.
  cbn [existsb methods Method_eqb orb]. unfold publish.
  rewrite (login_required_authenticated _ _ _ Hload), Hget. reflexivity.
Qed.

(** X9.  A login POST carrying both fields is refused in one and the
    same way whether the username is unknown or the password fails the
    check: the message "Invalid username or password" is flashed, the
    login page is rendered, and the requester stays who they were. *)
Theorem login_refusal_is_uniform
    (req : Request) (st : State) (uname pw : string) :
  method req = POST ->
  field_data req "username" = Some uname ->
  field_data req "password" = Some pw ->
  (User_filter_by_username_first (db st) uname = None \/
   exists u, User_filter_by_username_first (db st) uname = Some u /\
             check_password_hash (password_hash u) pw = false) ->
  handle_request RouteLogin req st
  = (Render LoginHtml, flashed st "Invalid username or password").
Proof.
  intros Hm Hn Hp [Hu|[u [Hu Hc]]].
  - unfold handle_request, view_function. rewrite Hm.
    cbn [existsb methods Method_eqb orb].
    unfold login. rewrite Hm, (getitem_field _ _ _ Hn), (getitem_field _ _ _ Hp).
    unfold bind, gets, ret. cbv beta iota. now rewrite Hu.
  - now rewrite (login_post req st uname pw u Hm Hn Hp Hu), Hc.
Qed.

(** ** What a GET, and what any route but register, leaves alone *)

(** X10.  A GET request never writes to the database, on any route. *)
Theorem get_never_writes (r : Route) (req : Request) (st : State) :
  method req = GET ->
  db (snd (handle_request r req st)) = db st.
Proof.
  intros Hm. destruct r.
  1: { rewrite register_cases, Hm. now destruct (load_user st). }
  all: unfold_all_views; rewrite Hm; cbn [existsb methods Method_eqb orb];
    split_cases_eqn; reflexivity.
Qed.

(** X11.  User rows are never changed or removed, and only a POST to the
    register route by a requester who is not logged in adds one: after
    any request the user table is the old one, or the old one followed
    by one row whose id and username were not in use. *)
Theorem user_rows_are_only_added (r : Route) (req : Request) (st : State) :
  let users := user_table (db st) in
  let users' := user_table (db (snd (handle_request r req st))) in
  users' = users \/
  (r = RouteRegister /\ method req = POST /\ load_user st = None /\
   exists row, users' = (users ++ [row])%list /\
               ~ In (user_id row) (map user_id users) /\
               ~ In (username row) (map username users)).
Proof.
  intros users users'. subst users users'. destruct r.
  1: { rewrite register_cases.
       destruct (load_user st); [now left|].
       destruct (method req); [now left|]. cbv zeta.
       destruct (is_valid _) eqn:Hv; [|now left].
       destruct (field_data req "username") as [uname|] eqn:Hn; [|now left].
       destruct (field_data req "password"); [|now left].
       apply is_valid_username_errors in Hv. simpl in Hv. rewrite Hn in Hv.
       apply username_chain_free in Hv.
       right. repeat split. eexists. split; [reflexivity|]. split.
       - apply fresh_not_in.
       - now apply username_free_not_in. }
  all: left; unfold_all_views;
    destruct (method req); cbn [existsb methods Method_eqb orb];
    split_cases_eqn; reflexivity.
Qed.

(** ** Registration: when it succeeds *)










(** ** Missing form fields and missing articles *)

Lemma getitem_absent (req : Request) (key : string) :
  field_data req key = None ->
  getitem (form req) key = raise (BadRequestKeyError key).
Proof.
  unfold field_data, getitem.
  destruct (getlist (form req) key); simpl; congruence.
Qed.

Ltac eval_getitems :=
  repeat match goal with
         | Hf : field_data ?req ?k = Some ?v |- _ =>
             rewrite (getitem_field req k v Hf)
         | Hf : field_data ?req ?k = None |- _ =>
             rewrite (getitem_absent req k Hf)
         end.

(** X13.  A POST to publish by a logged-in requester that lacks one of
    the fields title, content, type, download_link or source is
    answered by the generic 500 page; no article and no association row
    is written and nothing is flashed. *)
Theorem publish_missing_field_writes_nothing
    (req : Request) (st : State) (u : User) (key : string) :
  load_user st = Some u ->
  method req = POST ->
  In key ["title"; "content"; "type"; "download_link"; "source"] ->
  field_data req key = None ->
  failed st (handle_request RoutePublish req st).
Proof.
  intros Hu Hm Hkey Hnone.
  assert (Hraise : exists k, publish req st = Raise (BadRequestKeyError k)).
  { unfold publish. rewrite (login_required_authenticated _ _ _ Hu), Hm.
    destruct (field_data req "title") eqn:Ht;
      [|eval_getitems; eexists; reflexivity].
    destruct (field_data req "content") eqn:Hc;
      [|eval_getitems; eexists; reflexivity].
    destruct (field_data req "type") eqn:Hty;
      [|eval_getitems; eexists; reflexivity].
    destruct (field_data req "download_link") eqn:Hdl;
      [|eval_getitems; eexists; reflexivity].
    destruct (field_data req "source") eqn:Hsrc.
    - exfalso. simpl in Hkey.
      destruct Hkey as [<-|[<-|[<-|[<-|[<-|[]]]]]]; congruence.
    - eval_getitems. eexists.
      unfold current_user_username, current_user, bind, gets, ret, raise.
      cbv beta iota. rewrite Hu. reflexivity. }
  destruct Hraise as [k Hk].
  unfold failed, handle_request, view_function. rewrite Hm.
  cbn [existsb methods Method_eqb orb]. rewrite Hk. repeat split.
Qed.

(** X14.  A POST to edit by the author that lacks one of the fields
    title, content, type or download_link is answered by the generic
    500 page and leaves the article as it was, also the attributes that
    were assigned before the missing field was read. *)
Theorem edit_missing_field_changes_nothing
    (id : nat) (req : Request) (st : State) (u : User) (a : Article)
    (key : string) :
  load_user st = Some u ->
  find (fun b => Nat.eqb (article_id b) id) (article_table (db st)) = Some a ->
  username u = author a ->
  method req = POST ->
  In key ["title"; "content"; "type"; "download_link"] ->
  field_data req key = None ->
  failed st (handle_request (RouteEdit id) req st).
Proof.
  intros Hu Hfind Ha Hm Hkey Hnone.
  assert (Hraise : exists k, edit_article id req st = Raise (BadRequestKeyError k)).
  { unfold edit_article. rewrite (login_required_authenticated _ _ _ Hu), Hm.
    unfold bind at 1. rewrite (Article_get_or_404_found _ _ _ Hfind).
    unfold bind at 1. rewrite (author_or_admin_author _ _ _ Hu Ha).
    cbn [negb].
    destruct (field_data req "title") eqn:Ht;
      [|eval_getitems; eexists; reflexivity].
    destruct (field_data req "content") eqn:Hc;
      [|eval_getitems; eexists; reflexivity].
    destruct (field_data req "type") eqn:Hty;
      [|eval_getitems; eexists; reflexivity].
    destruct (field_data req "download_link") eqn:Hdl;
      [|eval_getitems; eexists; reflexivity].
    exfalso. simpl in Hkey.
    destruct Hkey as [<-|[<-|[<-|[<-|[]]]]]; congruence. }
  destruct Hraise as [k Hk].
  unfold failed, handle_request, view_function. rewrite Hm.
  cbn [existsb methods Method_eqb orb]. rewrite Hk. repeat split.
Qed.

(** X15.  An id that names no article makes the article page, and for a
    logged-in requester the edit and delete routes, end in the catch-all
    handler: [get_or_404] raises, and the answer is the generic 500
    page, with the database and the session untouched. *)
Theorem missing_article_is_internal_error
    (id : nat) (req : Request) (st : State) :
  find (fun b => Nat.eqb (article_id b) id) (article_table (db st)) = None ->
  (method req = GET -> failed st (handle_request (RouteArticle id) req st)) /\
  (forall u, load_user st = Some u ->
     failed st (handle_request (RouteEdit id) req st) /\
     (method req = POST -> failed st (handle_request (RouteDelete id) req st))).
Proof.
  intros Hnone.
  assert (Hget : forall A (k : Article -> M A),
             bind (Article_get_or_404 id) k st = Raise NotFound).
  { intros A k. unfold bind, Article_get_or_404. now rewrite Hnone. }
  split; [|intros u Hu; split].
  - intros Hm. unfold failed, handle_request, view_function. rewrite Hm.
    cbn [existsb methods Method_eqb orb]. unfold article. rewrite Hget.
    repeat split.
  - unfold failed, handle_request, view_function.
    assert (He : edit_article id req st = Raise NotFound).
    { unfold edit_article. rewrite (login_required_authenticated _ _ _ Hu).
      apply Hget. }
    destruct (method req); cbn [existsb methods Method_eqb orb];
      rewrite He; repeat split.
  - intros Hm. unfold failed, handle_request, view_function. rewrite Hm.
    cbn [existsb methods Method_eqb orb]. unfold delete_article.
    rewrite (login_required_authenticated _ _ _ Hu), Hget. repeat split.
Qed.

(** ** Listings *)

Lemma insert_desc_perm (a : Article) (l : list Article) :
  Permutation (a :: l) (insert_desc a l).
Proof.
  induction l as [|b l IH]; simpl; [reflexivity|].
  destruct (Nat.leb (publish_date b) (publish_date a)); [reflexivity|].
  rewrite perm_swap. now apply perm_skip.
Qed.

Lemma order_by_perm (l : list Article) :
  Permutation l (order_by_publish_date_desc l).
Proof.
  induction l as [|a l IH]; simpl; [constructor|].
  rewrite <- insert_desc_perm. now apply perm_skip.
Qed.

Lemma insert_desc_sorted (a : Article) (l : list Article) :
  Sorted newer_or_equal l -> Sorted newer_or_equal (insert_desc a l).
Proof.
  induction l as [|b l IH]; simpl; intros Hs.
  - repeat constructor.
  - destruct (Nat.leb_spec (publish_date b) (publish_date a)) as [Hle|Hlt].
    + constructor; [exact Hs|]. constructor. exact Hle.
    + inversion Hs as [|? ? Hl Hhd]; subst. constructor; [now apply IH|].
      destruct l as [|c l]; simpl.
      * constructor. unfold newer_or_equal. lia.
      * destruct (Nat.leb (publish_date c) (publish_date a)).
        -- constructor. unfold newer_or_equal. lia.
        -- constructor. now inversion Hhd.
Qed.

Lemma order_by_sorted (l : list Article) :
  Sorted newer_or_equal (order_by_publish_date_desc l).
Proof.
  induction l as [|a l IH]; simpl; [constructor|]. now apply insert_desc_sorted.
Qed.

Lemma home_request (req : Request) (st : State) :
  method req = GET ->
  handle_request RouteHome req st
  = (Render (HomeHtml (map (fun a => (a, markdown (content a)))
                           (order_by_publish_date_desc (article_table (db st))))),
     st).
Proof.
  intros Hm. unfold handle_request, view_function. now rewrite Hm.
Qed.

(** X16.  The home page lists every article of the table exactly once,
    newest first, each with the Markdown rendering of its content, and
    leaves the state as it was. *)
Theorem home_lists_all_newest_first (req : Request) (st : State) :
  method req = GET ->
  exists l,
    handle_request RouteHome req st = (Render (HomeHtml l), st) /\
    Permutation (map fst l) (article_table (db st)) /\
    Sorted newer_or_equal (map fst l) /\
    forall x, In x l -> snd x = markdown (content (fst x)).
Proof.
  intros Hm. eexists. split; [now apply home_request|].
  rewrite map_map. cbn [fst]. rewrite map_id.
  split; [symmetry; apply order_by_perm|]. split; [apply order_by_sorted|].
  intros x Hx. apply in_map_iff in Hx as [a [<- _]]. reflexivity.
Qed.

Lemma find_fresh (l : list Article) :
  find (fun b => Nat.eqb (article_id b) (next_id (map article_id l))) l = None.
Proof.
  destruct (find _ l) as [b|] eqn:E; [|reflexivity].
  apply find_some in E as [Hin Hid]. apply Nat.eqb_eq in Hid.
  elim (fresh_not_in (map article_id l)). rewrite <- Hid. now apply in_map.
Qed.

(** X17.  After a successful POST to publish the new article can be
    seen everywhere: its page renders it under an id no article had
    before, the home page lists it, and so does the listing of its
    source.  Its author is the username of the logged-in requester and
    its date the time of the request, whatever the form contained. *)
Theorem published_article_is_listed
    (req : Request) (st : State) (u : User) (t c ty dl src : string) :
  load_user st = Some u ->
  method req = POST ->
  field_data req "title" = Some t ->
  field_data req "content" = Some c ->
  field_data req "type" = Some ty ->
  field_data req "download_link" = Some dl ->
  field_data req "source" = Some src ->
  let st' := snd (handle_request RoutePublish req st) in
  exists a,
    ~ In (article_id a) (map article_id (article_table (db st))) /\
    author a = username u /\ publish_date a = now req /\
    forall req', method req' = GET ->
      handle_request (RouteArticle (article_id a)) req' st'
        = (Render (ArticleHtml a (markdown c)), st') /\
      (exists l, handle_request RouteHome req' st' = (Render (HomeHtml l), st') /\
                 In (a, markdown c) l) /\
      (exists l, handle_request (RouteSource src) req' st'
                 = (Render (SourceArticlesHtml l src), st') /\ In a l).
Proof.
  intros Hu Hm Ht Hc Hty Hdl Hsrc st'. subst st'.
  rewrite (publish_post req st u t c ty dl src) by assumption.
  cbn [snd]. set (a := published_row st req u t c ty dl src).
  exists a. split; [apply fresh_not_in|]. split; [reflexivity|].
  split; [reflexivity|]. intros req' Hget. split; [|split].
  - unfold handle_request, view_function. rewrite Hget.
    cbn [existsb methods Method_eqb orb].
    assert (Hfind : find (fun b => Nat.eqb (article_id b) (article_id a))
                         (article_table (db st) ++ [a]) = Some a).
    { apply find_snoc_none; [exact (find_fresh _)|apply Nat.eqb_refl]. }
    unfold article, bind, Article_get_or_404, ret.
    cbn [db article_table]. now rewrite Hfind.
  - eexists. split; [now apply home_request|].
    apply (in_map (fun b => (b, markdown (content b))) _ a).
    cbn [db article_table].
    apply (Permutation_in _ (order_by_perm _)), in_app_iff. right. now left.
  - eexists. split.
    + unfold handle_request, view_function. rewrite Hget. reflexivity.
    + unfold Article_filter_by_source. cbn [db article_table].
      apply filter_In. split; [apply in_app_iff; right; now left|].
      simpl. apply String.eqb_refl.
Qed.

(** ** Deleting and editing, composed with the other routes *)

Lemma filter_all {A} (f : A -> bool) (l : list A) :
  (forall x, In x l -> f x = true) -> filter f l = l.
Proof.
  intros Hf. induction l as [|x l IH]; simpl; [reflexivity|].
  rewrite (Hf x) by (now left). f_equal. apply IH. intros y Hy. apply Hf. now right.
Qed.

Lemma existsb_filter {A} (f g : A -> bool) (l : list A) :
  (forall x, f x = true -> g x = true) ->
  existsb f (filter g l) = existsb f l.
Proof.
  intros Hfg. induction l as [|x l IH]; simpl; [reflexivity|].
  destruct (g x) eqn:Hg; simpl; [now rewrite IH|].
  destruct (f x) eqn:Hfx; [|exact IH].
  apply Hfg in Hfx. congruence.
Qed.

Lemma load_user_same (st st' : State) :
  user_table (db st') = user_table (db st) ->
  session_user_id (session st') = session_user_id (session st) ->
  load_user st' = load_user st.
Proof. unfold load_user, User_get. now intros -> ->. Qed.

(** X18.  Publishing an article and then deleting it, by the same
    requester, gives back the database as it was before the article was
    published: the article row and the association rows it brought are
    gone and nothing else has changed.  (The association table refers to
    existing articles only.) *)
Theorem publish_then_delete_restores
    (req req2 : Request) (st : State) (u : User) (t c ty dl src : string) :
  load_user st = Some u ->
  method req = POST ->
  field_data req "title" = Some t ->
  field_data req "content" = Some c ->
  field_data req "type" = Some ty ->
  field_data req "download_link" = Some dl ->
  field_data req "source" = Some src ->
  fk_article (db st) ->
  method req2 = POST ->
  let st1 := snd (handle_request RoutePublish req st) in
  let new_id := next_id (map article_id (article_table (db st))) in
  let out := handle_request (RouteDelete new_id) req2 st1 in
  fst out = Redirect EpHome /\ db (snd out) = db st.
Proof.
  intros Hu Hm Ht Hc Hty Hdl Hsrc Hfk Hm2 st1 new_id out. subst out st1.
  rewrite (publish_post req st u t c ty dl src) by assumption.
  cbn [snd]. set (a := published_row st req u t c ty dl src).
  set (st1 := mkState _ _ _).
  assert (Hu1 : load_user st1 = Some u).
  { rewrite <- Hu. now apply load_user_same. }
  assert (Hfind : find (fun b => Nat.eqb (article_id b) new_id)
                       (article_table (db st1)) = Some a).
  { subst st1. cbn [db article_table].
    apply find_snoc_none; [exact (find_fresh _)|apply Nat.eqb_refl]. }
  rewrite (delete_post new_id req2 st1 u a Hu1 Hfind eq_refl Hm2).
  cbn [fst snd db]. split; [reflexivity|].
  subst st1. cbn [db user_table category_table article_table article_categories].
  rewrite !filter_app. cbn [filter article_id a published_row fst].
  fold new_id. rewrite Nat.eqb_refl. cbn [negb]. rewrite !app_nil_r.
  rewrite (filter_all _ (article_table (db st))).
  2: { intros b Hb. apply negb_true_iff, Nat.eqb_neq. intros E.
       elim (fresh_not_in (map article_id (article_table (db st)))).
       fold new_id. rewrite <- E. now apply in_map. }
  rewrite (filter_all _ (article_categories (db st))).
  2: { intros r Hr. apply negb_true_iff, Nat.eqb_neq. intros E.
       elim (fresh_not_in (map article_id (article_table (db st)))).
       fold new_id. rewrite <- E. now apply Hfk. }
  rewrite (filter_none _ (map _ _)).
  2: { intros r Hr. apply in_map_iff in Hr as [k [<- _]]. cbn [fst].
       now rewrite Nat.eqb_refl. }
  rewrite app_nil_r. now destruct (db st).
Qed.

(** X19.  Deleting an article leaves every other article where it was,
    with the categories it had, and touches neither the user table nor
    the category table. *)
Theorem delete_keeps_other_articles
    (id : nat) (req : Request) (st : State) (u : User) (a : Article) :
  load_user st = Some u ->
  find (fun b => Nat.eqb (article_id b) id) (article_table (db st)) = Some a ->
  username u = author a ->
  method req = POST ->
  let d' := db (snd (handle_request (RouteDelete id) req st)) in
  user_table d' = user_table (db st) /\
  category_table d' = category_table (db st) /\
  forall b, article_id b <> id ->
    (In b (article_table d') <-> In b (article_table (db st))) /\
    Article_categories d' b = Article_categories (db st) b.
Proof.
  intros Hu Hfind Ha Hm d'. subst d'.
  rewrite (delete_post id req st u a) by assumption.
  cbn [snd db user_table category_table article_table article_categories].
  split; [reflexivity|]. split; [reflexivity|]. intros b Hb. split.
  - rewrite filter_In. split; [tauto|]. intros Hin. split; [exact Hin|].
    now apply negb_true_iff, Nat.eqb_neq.
  - unfold Article_categories. cbn [category_table article_categories].
    apply filter_ext. intros k. apply existsb_filter.
    intros r Hr. apply andb_prop in Hr as [Hr _]. apply Nat.eqb_eq in Hr.
    apply negb_true_iff, Nat.eqb_neq. congruence.
Qed.

(** X20.  Once an article is deleted, its page and a second delete by
    the same requester end in the generic 500 page: no row with that id
    is left to be found. *)
Theorem deleted_article_is_gone
    (id : nat) (req req' : Request) (st : State) (u : User) (a : Article) :
  load_user st = Some u ->
  find (fun b => Nat.eqb (article_id b) id) (article_table (db st)) = Some a ->
  username u = author a ->
  method req = POST ->
  let st' := snd (handle_request (RouteDelete id) req st) in
  (method req' = GET -> failed st' (handle_request (RouteArticle id) req' st')) /\
  (method req' = POST -> failed st' (handle_request (RouteDelete id) req' st')).
Proof.
  intros Hu Hfind Ha Hm st'. subst st'.
  rewrite (delete_post id req st u a) by assumption. cbn [snd].
  set (st' := mkState _ _ _).
  assert (Hnone : find (fun b => Nat.eqb (article_id b) id)
                       (article_table (db st')) = None).
  { subst st'. cbn [db article_table].
    destruct (find _ (filter _ _)) as [b|] eqn:E; [|reflexivity].
    apply find_some in E as [Hin Hid]. apply filter_In in Hin as [_ Hne].
    rewrite Hid in Hne. discriminate. }
  assert (Hu' : load_user st' = Some u).
  { rewrite <- Hu. now apply load_user_same. }
  assert (Hget : forall A (k : Article -> M A),
             bind (Article_get_or_404 id) k st' = Raise NotFound).
  { intros A k. unfold bind, Article_get_or_404. now rewrite Hnone. }
  split; intros Hm'; unfold failed, handle_request, view_function; rewrite Hm';
    cbn [existsb methods Method_eqb orb].
  - unfold article. rewrite Hget. repeat split.
  - unfold delete_article.
    rewrite (login_required_authenticated _ _ _ Hu'), Hget. repeat split.
Qed.

(** X21.  After a successful POST to edit, the article page shows the
    edited article: the submitted title and content, rendered, under the
    same id, author and date. *)
Theorem edited_article_is_shown
    (id : nat) (req req' : Request) (st : State) (u : User) (a : Article)
    (t c ty dl : string) :
  load_user st = Some u ->
  find (fun b => Nat.eqb (article_id b) id) (article_table (db st)) = Some a ->
  username u = author a ->
  method req = POST ->
  field_data req "title" = Some t ->
  field_data req "content" = Some c ->
  field_data req "type" = Some ty ->
  field_data req "download_link" = Some dl ->
  method req' = GET ->
  let st' := snd (handle_request (RouteEdit id) req st) in
  exists a',
    handle_request (RouteArticle id) req' st'
      = (Render (ArticleHtml a' (markdown c)), st') /\
    title a' = t /\ content a' = c /\ article_id a' = id /\
    author a' = author a /\ publish_date a' = publish_date a.
Proof.
  intros Hu Hfind Ha Hm Ht Hc Hty Hdl Hget st'. subst st'.
  rewrite (edit_post id req st u a t c ty dl) by assumption. cbn [snd].
  pose proof (find_article_id _ _ _ Hfind) as Hid. subst id.
  exists (edited_row a req t c ty dl). split; [|repeat split].
  unfold handle_request, view_function. rewrite Hget.
  cbn [existsb methods Method_eqb orb].
  unfold article, bind, Article_get_or_404, ret. cbn [db article_table].
  now rewrite (find_replaced _ a (edited_row a req t c ty dl) _ Hfind eq_refl).
Qed.

(** ** The stored country string and the edit form *)

Lemma prefix_sep_inv (c : ascii) (s : string) :
  String.prefix ", " (String c s) = true ->
  c = ","%char /\ exists r, s = String " " r.
Proof.
  rewrite prefix_cons. destruct (ascii_dec "," c) as [E|E]; cbv iota;
    [subst c|discriminate].
  destruct s as [|d s]; [intros Hp; discriminate Hp|]. rewrite prefix_cons.
  destruct (ascii_dec " " d) as [E|E]; cbv iota; [subst d|discriminate].
  intros _. split; [reflexivity|now exists s].
Qed.

Lemma split_from_not_nil (sep : string) (k : nat) (cur s : string) :
  split_from sep k cur s <> [].
Proof.
  revert k cur. induction s as [|c s IH]; intros k cur; [discriminate|].
  destruct k as [|k].
  - rewrite split_from_cons.
    destruct (String.prefix sep (String c s)); [discriminate|apply IH].
  - change (split_from sep (S k) cur (String c s)) with (split_from sep k cur s).
    apply IH.
Qed.

Lemma join_cons (sep x : string) (l : list string) :
  l <> [] -> join sep (x :: l) = x ++ sep ++ join sep l.
Proof. destruct l; [congruence|reflexivity]. Qed.

Lemma join_split_from (n : nat) (s cur : string) :
  String.length s <= n ->
  join ", " (split_from ", " 0 cur s) = cur ++ s.
Proof.
  revert s cur. induction n as [|n IH]; intros s cur Hlen.
  - destruct s; [|simpl in Hlen; lia]. simpl. now rewrite append_empty_r.
  - destruct s as [|c s]; [simpl; now rewrite append_empty_r|].
    rewrite split_from_cons.
    destruct (String.prefix ", " (String c s)) eqn:Hp.
    + apply prefix_sep_inv in Hp as [-> [r ->]].
      change (split_from ", " (String.length ", " - 1) "" (String " " r))
        with (split_from ", " 0 "" r).
      rewrite join_cons by apply split_from_not_nil.
      rewrite (IH r "") by (simpl in Hlen; lia). reflexivity.
    + rewrite (IH s) by (simpl in Hlen; lia). apply append_snoc.
Qed.

(** X22.  Joining what [split] cut gives the string back, for every
    string: the pieces the edit form starts from, posted back
    unchanged, store the country string the article already had. *)
Theorem join_split_identity (s : string) :
  join ", " (split ", " s) = s.
Proof. unfold split. now rewrite (join_split_from (String.length s)). Qed.

(** X23.  The edit page of an article whose stored country string is the
    join of a list of names, none containing a comma followed by a
    space, starts from exactly that list; an article published without
    any country starts from the empty selection.  The page is rendered
    for the author without changing the state. *)
Theorem edit_form_recovers_selection
    (id : nat) (req : Request) (st : State) (u : User) (a : Article)
    (l : list string) :
  load_user st = Some u ->
  find (fun b => Nat.eqb (article_id b) id) (article_table (db st)) = Some a ->
  username u = author a ->
  method req = GET ->
  country a = Some (join ", " l) ->
  Forall (fun y => contains ", " y = false) l ->
  l <> [""] ->
  handle_request (RouteEdit id) req st
  = (Render (EditArticleHtml a pycountry_countries l article_types), st).
Proof.
  intros Hu Hfind Ha Hm Hc Hall Hne.
  unfold handle_request, view_function. rewrite Hm.
  cbn [existsb methods Method_eqb orb].
  unfold edit_article. rewrite (login_required_authenticated _ _ _ Hu), Hm.
  unfold bind at 1. rewrite (Article_get_or_404_found _ _ _ Hfind).
  unfold bind at 1. rewrite (author_or_admin_author _ _ _ Hu Ha).
  cbn [negb]. unfold ret.
  now rewrite (selected_countries_of_joined a l Hall Hne Hc).
Qed.

Lemma prefix_sep_two (c d : ascii) (t : string) :
  String.prefix ", " (String c (String d t))
  = String.prefix ", " (String c (String d "")).
Proof.
  rewrite !prefix_cons. destruct (ascii_dec "," c); [|reflexivity].
  destruct (ascii_dec " " d); [|reflexivity]. now rewrite !prefix_empty.
Qed.

Lemma prefix_sep_single (c : ascii) : String.prefix ", " (String c "") = false.
Proof. rewrite prefix_cons. now destruct (ascii_dec "," c). Qed.

Lemma contains_single (c : ascii) : contains ", " (String c "") = false.
Proof. rewrite contains_cons, prefix_sep_single. reflexivity. Qed.

Lemma prefix_sep_snoc2 (e c d : ascii) (x : string) :
  String.prefix ", " (String e (x ++ String c (String d "")))
  = String.prefix ", " (String e (x ++ String c "")).
Proof.
  destruct x as [|f x]; cbn [append].
  - rewrite prefix_sep_two. reflexivity.
  - rewrite prefix_sep_two. symmetry. apply prefix_sep_two.
Qed.

Lemma contains_snoc2 (x : string) (c d : ascii) :
  contains ", " (x ++ String c (String d ""))
  = contains ", " (x ++ String c "") || String.prefix ", " (String c (String d "")).
Proof.
  induction x as [|e x IH].
  - cbn [append]. rewrite contains_cons, !contains_single. now rewrite orb_false_r.
  - change (String e x ++ String c (String d ""))
      with (String e (x ++ String c (String d ""))).
    change (String e x ++ String c "") with (String e (x ++ String c "")).
    rewrite !contains_cons, prefix_sep_snoc2, IH. now rewrite orb_assoc.
Qed.

Lemma contains_append_false (x y : string) :
  contains ", " (x ++ y) = false -> contains ", " x = false.
Proof.
  induction x as [|e x IH]; [reflexivity|].
  change (String e x ++ y) with (String e (x ++ y)).
  intros Hc. apply contains_cons_false in Hc as [Hp Hc].
  rewrite contains_cons, (IH Hc), orb_false_r.
  destruct (String.prefix ", " (String e x)) eqn:E; [|reflexivity].
  apply prefix_sep_inv in E as [-> [r ->]].
  change (String " " r ++ y) with (String " " (r ++ y)) in Hp.
  now rewrite prefix_sep_here in Hp.
Qed.

Lemma split_from_pieces (n : nat) (s cur : string) :
  String.length s <= n ->
  contains ", " (cur ++ match s with
                        | EmptyString => ""
                        | String c _ => String c ""
                        end) = false ->
  Forall (fun piece => contains ", " piece = false) (split_from ", " 0 cur s).
Proof.
  revert s cur. induction n as [|n IH]; intros s cur Hlen Hcur.
  - destruct s; [|simpl in Hlen; lia].
    rewrite append_empty_r in Hcur. simpl. now repeat constructor.
  - destruct s as [|c s].
    { rewrite append_empty_r in Hcur. simpl. now repeat constructor. }
    rewrite split_from_cons.
    destruct (String.prefix ", " (String c s)) eqn:Hp.
    + apply prefix_sep_inv in Hp as [-> [r ->]].
      change (split_from ", " (String.length ", " - 1) "" (String " " r))
        with (split_from ", " 0 "" r).
      constructor; [now apply contains_append_false in Hcur|].
      apply IH; [simpl in Hlen; lia|].
      destruct r; [reflexivity|apply contains_single].
    + apply IH; [simpl in Hlen; lia|].
      destruct s as [|d s]; [now rewrite append_empty_r|].
      rewrite append_snoc, contains_snoc2, Hcur.
      now rewrite <- (prefix_sep_two c d s), Hp.
Qed.

(** X24.  No selection the edit form starts from contains a comma
    followed by a space, and there is always at least one piece when
    the stored string is not empty: [split] cuts at every occurrence of
    the separator. *)
Theorem selected_countries_are_separator_free (a : Article) :
  Forall (fun piece => contains ", " piece = false) (selected_countries a) /\
  (truthy (country a) = true -> selected_countries a <> []).
Proof.
  unfold selected_countries. destruct (country a) as [c|]; [|split; [constructor|discriminate]].
  destruct (truthy (Some c)); split; try constructor; try discriminate.
  - apply (split_from_pieces (String.length c)); [lia|].
    destruct c; [reflexivity|apply contains_single].
  - intros _. apply split_from_not_nil.
Qed.

(** ** The remaining edges of the routes *)

(** X25.  The listing of a source shows exactly the articles whose
    source is the requested string, compared exactly; an article without
    a source is in no listing.  The state is left as it was. *)
Theorem source_listing_is_exact (src : string) (req : Request) (st : State) :
  method req = GET ->
  exists l,
    handle_request (RouteSource src) req st
      = (Render (SourceArticlesHtml l src), st) /\
    forall a, In a l <-> In a (article_table (db st)) /\ source a = Some src.
Proof.
  intros Hm. eexists. split.
  - unfold handle_request, view_function. rewrite Hm. reflexivity.
  - intros a. unfold Article_filter_by_source. rewrite filter_In.
    destruct (source a) as [s0|]; [|split; intros [_ E]; discriminate].
    destruct (String.eqb_spec s0 src) as [->|E]; split; intros [Hin Hs];
      (split; [exact Hin|]); (reflexivity || discriminate || congruence).
Qed.

(** X26.  A login POST that lacks the username or the password field
    ends in the generic 500 page: nobody is logged in by it and nothing
    is flashed. *)
Theorem login_missing_field_is_internal_error (req : Request) (st : State) :
  method req = POST ->
  field_data req "username" = None \/ field_data req "password" = None ->
  failed st (handle_request RouteLogin req st).
Proof.
  intros Hm Hmiss.
  assert (Hraise : exists k, login req st = Raise (BadRequestKeyError k)).
  { unfold login. rewrite Hm.
    destruct (field_data req "username") eqn:Hn;
      [|eval_getitems; eexists; reflexivity].
    destruct Hmiss as [Hmiss|Hmiss]; [discriminate|].
    eval_getitems. eexists. reflexivity. }
  destruct Hraise as [k Hk].
  unfold failed, handle_request, view_function. rewrite Hm.
  cbn [existsb methods Method_eqb orb]. rewrite Hk. repeat split.
Qed.

End Further.

(** * The views on concrete requests *)

Lemma demo_check_exact (p s q : string) :
  demo_check_password_hash (demo_generate_password_hash p s) q = true <-> p = q.
Proof.
  unfold demo_check_password_hash, demo_generate_password_hash.
  rewrite String.eqb_eq. split; [|now intros ->].
  intros E. now injection E.
Qed.

Lemma demo_hash_not_plain (p s : string) : demo_generate_password_hash p s <> p.
Proof.
  unfold demo_generate_password_hash. intros E.
  apply (f_equal String.length) in E. simpl in E. lia.
Qed.

(** bob asks to edit, and to delete, the article of alice. *)
Lemma edit_delete_by_other_user_is_500_witness :
  load_user (as_user (Some 2)) = Some bob /\
  username bob <> author leak1 /\
  demo_handle (RouteEdit 1) (request GET []) (as_user (Some 2)) =
    (Plain "An internal error occurred" 500,
     mkState demo_db (mkSession (Some 2) [])
       ["An error occurred: 'User' object has no attribute 'is_admin'"]) /\
  demo_handle (RouteDelete 1) (request POST []) (as_user (Some 2)) =
    (Plain "An internal error occurred" 500,
     mkState demo_db (mkSession (Some 2) [])
       ["An error occurred: 'User' object has no attribute 'is_admin'"]).
Proof.
  assert (Hne : username bob <> author leak1) by discriminate.
  split; [reflexivity|]. split; [exact Hne|].
  destruct (@edit_delete_by_other_user_is_500 demo 1 (request GET [])
              (request POST []) (as_user (Some 2)) bob leak1
              eq_refl eq_refl Hne eq_refl)
    as (He & Hd & _).
  split; [exact He|exact Hd].
Defined.

(** alice edits her article; the form also carries a source and
    category ids. *)
Lemma edit_post_replaces_five_fields_witness :
  let req := request POST (article_form ["Kenya"; "Chad"]) in
  let out := demo_handle (RouteEdit 1) req (as_user (Some 1)) in
  load_user (as_user (Some 1)) = Some alice /\
  username alice = author leak1 /\
  fst out = Redirect (EpArticle 1) /\
  article_table (db (snd out)) =
    [mkArticle 1 "Breach" "# Breach" "alice" 100 (Some "Kenya, Chad")
               (Some "http://x/2") (Some "Rumour") (Some "AP")] /\
  article_categories (db (snd out)) = [(1, 1)].
Proof.
  intros req out.
  destruct (@edit_post_replaces_five_fields demo 1 req (as_user (Some 1))
              alice leak1 "Breach" "# Breach" "Rumour" "http://x/2"
              eq_refl eq_refl eq_refl eq_refl eq_refl eq_refl eq_refl eq_refl)
    as (Hr & a' & _ & Ht & _ & _ & _ & _ & _ & _ & _ & _ & _ & Hj & _).
  split; [reflexivity|]. split; [reflexivity|]. split; [exact Hr|].
  split; [reflexivity|exact Hj].
Defined.

(** C2, as stated, fails: after alice's edit the source is still the one
    the article was published with, not the submitted one, and the
    categories are the old ones. *)
Lemma edit_keeps_source_and_categories :
  ~ @edit_replaces_all_but_identity demo 1
      (request POST (article_form ["Kenya"; "Chad"])) (as_user (Some 1)).
Proof.
  intros Hc.
  destruct (Hc (mkArticle 1 "Breach" "# Breach" "alice" 100 (Some "Kenya, Chad")
                          (Some "http://x/2") (Some "Rumour") (Some "AP"))
               eq_refl)
    as (_ & _ & _ & _ & _ & Hsrc & _).
  discriminate Hsrc.
Qed.

(** The example of the specification: France and Germany are stored as
    one string and read back as the same two names. *)
Example publish_edit_france_germany :
  let st1 := snd (demo_handle RoutePublish
                    (request POST (article_form ["France"; "Germany"]))
                    (as_user (Some 2))) in
  exists a,
    find (fun b => Nat.eqb (article_id b) 2) (article_table (db st1)) = Some a /\
    country a = Some "France, Germany" /\
    selected_countries a = ["France"; "Germany"].
Proof.
  eexists. split; [reflexivity|]. split; [reflexivity|].
  apply selected_countries_of_joined;
    [repeat constructor|discriminate|reflexivity].
Qed.

(** C3.  The round trip is lost on a country whose name contains a comma
    followed by a space: bob publishes with the single selection
    "Korea, Republic of", the stored string is that name, and the edit
    form starts from the two selections "Korea" and "Republic of". *)
Theorem country_with_comma_is_split_in_two :
  let selection := ["Korea, Republic of"] in
  let st1 := snd (demo_handle RoutePublish (request POST (article_form selection))
                    (as_user (Some 2))) in
  In "Korea, Republic of" (@pycountry_countries demo) /\
  getlist (article_form selection) "countries" = selection /\
  exists a,
    find (fun b => Nat.eqb (article_id b) 2) (article_table (db st1)) = Some a /\
    country a = Some "Korea, Republic of" /\
    fst (demo_handle (RouteEdit 2) (request GET []) st1) =
      Render (EditArticleHtml a (@pycountry_countries demo)
                              ["Korea"; "Republic of"] article_types) /\
    selected_countries a <> selection.
Proof.
  split; [simpl; tauto|]. split; [reflexivity|].
  eexists. split; [reflexivity|]. split; [reflexivity|].
  split; [reflexivity|discriminate].
Qed.

(** A second registration under the name alice. *)
Lemma register_keeps_usernames_unique_witness :
  let req := request POST (registration_form "alice" "pw" "pw") in
  let out := demo_handle RouteRegister req (as_user None) in
  NoDup (map username (user_table demo_db)) /\
  NoDup (map username (user_table (db (snd out)))) /\
  user_table (db (snd out)) = [alice; bob] /\
  exists e, fst out = Render (RegisterHtml e) /\
            is_valid e = false /\ username_errors e <> [].
Proof.
  intros req out.
  assert (Hnd : NoDup (map username (user_table (db (as_user None))))).
  { repeat constructor; simpl; intuition discriminate. }
  destruct (@register_keeps_usernames_unique demo req (as_user None) Hnd)
    as (Hnd' & Hdup).
  destruct (Hdup "alice" eq_refl (or_introl eq_refl)) as (Hsame & Hform).
  split; [exact Hnd|]. split; [exact Hnd'|]. split; [exact Hsame|].
  exact (Hform eq_refl eq_refl).
Defined.

(** carol registers with the password "s3cret" and logs in, once with
    that password and once with another. *)
Lemma login_iff_registration_password_witness :
  let req := request POST (registration_form "carol" "s3cret" "s3cret") in
  let st1 := snd (demo_handle RouteRegister req (as_user None)) in
  demo_handle RouteRegister req (as_user None) = (Redirect EpLogin, st1) /\
  exists row,
    User_filter_by_username_first (db st1) "carol" = Some row /\
    password_hash row = "demo$s3cret" /\
    password_hash row <> "s3cret" /\
    fst (demo_handle RouteLogin (request POST (login_form "carol" "s3cret")) st1)
      = Redirect EpHome /\
    fst (demo_handle RouteLogin (request POST (login_form "carol" "secret")) st1)
      = Render LoginHtml.
Proof.
  intros req st1. split; [reflexivity|].
  destruct (@login_iff_registration_password demo demo_check_exact
              demo_hash_not_plain req (as_user None) st1 "carol" "s3cret"
              eq_refl eq_refl eq_refl)
    as (row & Hrow & Hhash & Hplain & Hlogin).
  exists row. split; [exact Hrow|]. split; [exact Hhash|]. split; [exact Hplain|].
  split.
  - apply (Hlogin st1 (request POST (login_form "carol" "s3cret")) "s3cret"
                  (@reach_refl demo st1) eq_refl eq_refl eq_refl).
    reflexivity.
  - apply (Hlogin st1 (request POST (login_form "carol" "secret")) "secret"
                  (@reach_refl demo st1) eq_refl eq_refl eq_refl).
    discriminate.
Defined.

(** A publish request without a login. *)
Lemma publish_unauthenticated_redirects_witness :
  let out := demo_handle RoutePublish (request POST (article_form ["France"]))
                         (as_user None) in
  load_user (as_user None) = None /\
  fst out = Redirect EpHome /\
  article_table (db (snd out)) = [leak1].
Proof.
  intros out.
  destruct (@publish_unauthenticated_redirects demo
              (request POST (article_form ["France"])) (as_user None) eq_refl)
    as (Hr & _ & Ha & _).
  split; [reflexivity|]. split; [exact Hr|exact Ha].
Defined.

(** alice deletes her article. *)
Lemma delete_removes_article_and_associations_witness :
  let out := demo_handle (RouteDelete 1) (request POST []) (as_user (Some 1)) in
  load_user (as_user (Some 1)) = Some alice /\
  username alice = author leak1 /\
  fst out = Redirect EpHome /\
  article_table (db (snd out)) = [] /\
  article_categories (db (snd out)) = [] /\
  fst (demo_handle RouteHome (request GET []) (snd out)) = Render (HomeHtml []) /\
  fst (demo_handle (RouteSource "AP") (request GET []) (snd out))
    = Render (SourceArticlesHtml [] "AP").
Proof.
  intros out.
  destruct (@delete_removes_article_and_associations demo 1 (request POST [])
              (as_user (Some 1)) alice leak1 eq_refl eq_refl eq_refl eq_refl)
    as (Hr & Ha & Hj & _).
  split; [reflexivity|]. split; [reflexivity|]. split; [exact Hr|].
  split; [exact Ha|]. split; [exact Hj|]. split; reflexivity.
Defined.

(** bob publishes with the category ids "2", "9" and "x": the article
    gets the one category that exists. *)
Lemma publish_categories_are_existing_selected_witness :
  let req := request POST (article_form ["France"]) in
  let out := demo_handle RoutePublish req (as_user (Some 2)) in
  load_user (as_user (Some 2)) = Some bob /\
  fk_article demo_db /\
  getlist (form req) "categories" = ["2"; "9"; "x"] /\
  fst out = Redirect EpHome /\
  exists a',
    article_table (db (snd out)) = [leak1; a'] /\
    Article_categories (db (snd out)) a' = [mkCategory 2 "Tech"].
Proof.
  intros req out.
  assert (Hfk : fk_article (db (as_user (Some 2)))).
  { intros r [<-|[]]. simpl. now left. }
  destruct (@publish_categories_are_existing_selected demo req (as_user (Some 2))
              bob "Breach" "# Breach" "Rumour" "http://x/2" "Reuters"
              eq_refl eq_refl eq_refl eq_refl eq_refl eq_refl eq_refl Hfk)
    as (Hr & a' & Ht & Hc & _).
  split; [reflexivity|]. split; [exact Hfk|]. split; [reflexivity|].
  split; [exact Hr|]. exists a'. split; [exact Ht|exact Hc].
Defined.

(** alice, logged in, posts the registration form. *)
Lemma register_authenticated_redirects_witness :
  load_user (as_user (Some 1)) = Some alice /\
  demo_handle RouteRegister (request POST (registration_form "dave" "pw" "pw"))
              (as_user (Some 1))
  = (Redirect EpHome, as_user (Some 1)).
Proof.
  split; [reflexivity|].
  exact (@register_authenticated_redirects demo
           (request POST (registration_form "dave" "pw" "pw"))
           (as_user (Some 1)) alice eq_refl).
Defined.

(** The type "Rumour" is none of the five labels; alice publishes and
    edits with it. *)
Lemma article_type_stored_verbatim_witness :
  let req := request POST (article_form ["France"]) in
  load_user (as_user (Some 1)) = Some alice /\
  field_data req "type" = Some "Rumour" /\
  ~ In "Rumour" article_types /\
  (exists a', article_table (db (snd (demo_handle RoutePublish req (as_user (Some 1)))))
              = [leak1; a'] /\ article_type a' = Some "Rumour") /\
  (exists a', find (fun b => Nat.eqb (article_id b) 1)
                   (article_table (db (snd (demo_handle (RouteEdit 1) req
                                                        (as_user (Some 1))))))
              = Some a' /\ article_type a' = Some "Rumour").
Proof.
  intros req.
  destruct (@article_type_stored_verbatim demo req (as_user (Some 1)) alice
              "Breach" "# Breach" "Rumour" "http://x/2"
              eq_refl eq_refl eq_refl eq_refl eq_refl eq_refl)
    as (Hpub & Hedit).
  split; [reflexivity|]. split; [reflexivity|].
  split; [simpl; intuition discriminate|]. split.
  - destruct (Hpub "Reuters" eq_refl) as (_ & a' & Ht & Hty).
    exists a'. split; [exact Ht|exact Hty].
  - destruct (Hedit 1 leak1 eq_refl eq_refl) as (_ & a' & Hf & Hty).
    exists a'. split; [exact Hf|exact Hty].
Defined.

(** * The further properties on concrete requests *)

Lemma demo_db_ids_unique :
  NoDup (map user_id (user_table demo_db)) /\
  NoDup (map article_id (article_table demo_db)).
Proof. split; repeat constructor; simpl; intuition discriminate. Qed.

(** bob publishes into the demo database. *)
Lemma primary_keys_stay_unique_witness :
  let req := request POST (article_form ["France"]) in
  let d := db (snd (demo_handle RoutePublish req (as_user (Some 2)))) in
  NoDup (map user_id (user_table demo_db)) /\
  NoDup (map article_id (article_table demo_db)) /\
  map article_id (article_table d) = [1; 2] /\
  NoDup (map user_id (user_table d)) /\
  NoDup (map article_id (article_table d)).
Proof.
  intros req d. destruct demo_db_ids_unique as [Hu Ha].
  split; [exact Hu|]. split; [exact Ha|]. split; [reflexivity|].
  exact (@primary_keys_stay_unique demo RoutePublish req (as_user (Some 2)) Hu Ha).
Defined.

Lemma demo_authors_registered : authors_registered demo_db.
Proof. intros a [<-|[]]. simpl. now left. Qed.

Lemma authors_stay_registered_witness :
  let req := request POST (article_form ["France"]) in
  authors_registered demo_db /\
  authors_registered (db (snd (demo_handle RoutePublish req (as_user (Some 2))))).
Proof.
  intros req. split; [exact demo_authors_registered|].
  exact (@authors_stay_registered demo RoutePublish req (as_user (Some 2))
           demo_authors_registered).
Defined.

Lemma demo_foreign_keys : fk_article demo_db /\ fk_category demo_db.
Proof. split; intros r [<-|[]]; simpl; now left. Qed.

Lemma foreign_keys_stay_valid_witness :
  let req := request POST (article_form ["France"]) in
  let d := db (snd (demo_handle RoutePublish req (as_user (Some 2)))) in
  fk_article demo_db /\ fk_category demo_db /\
  article_categories d = [(1, 1); (2, 2)] /\
  fk_article d /\ fk_category d.
Proof.
  intros req d. destruct demo_foreign_keys as [Ha Hc].
  split; [exact Ha|]. split; [exact Hc|]. split; [reflexivity|].
  exact (@foreign_keys_stay_valid demo RoutePublish req (as_user (Some 2)) Ha Hc).
Defined.

(** alice registers in a new database. *)
Lemma fresh_database_invariants_witness :
  let st := snd (demo_handle RouteRegister
                   (request POST (registration_form "alice" "pw" "pw"))
                   fresh_state) in
  map username (user_table (db st)) = ["alice"] /\
  NoDup (map username (user_table (db st))) /\
  category_table (db st) = [].
Proof.
  intros st. split; [reflexivity|].
  destruct (@fresh_database_invariants demo (mkSession None []) [] st
              (@reach_request demo _ _ RouteRegister
                 (request POST (registration_form "alice" "pw" "pw"))
                 (@reach_refl demo _)))
    as (Hn & _ & _ & _ & _ & Hc & _).
  split; [exact Hn|exact Hc].
Defined.

(** An anonymous POST to delete an article, existing or not. *)
Lemma anonymous_is_redirected_witness :
  load_user (as_user None) = None /\
  fst (demo_handle (RouteDelete 1) (request POST []) (as_user None)) = Redirect EpHome /\
  fst (demo_handle (RouteDelete 7) (request POST []) (as_user None)) = Redirect EpHome /\
  db (snd (demo_handle (RouteDelete 1) (request POST []) (as_user None))) = demo_db.
Proof.
  destruct (@anonymous_is_redirected demo (RouteDelete 1) (request POST [])
              (as_user None) eq_refl eq_refl eq_refl) as (H1 & Hd & _).
  destruct (@anonymous_is_redirected demo (RouteDelete 7) (request POST [])
              (as_user None) eq_refl eq_refl eq_refl) as (H7 & _).
  split; [reflexivity|]. split; [exact H1|]. split; [exact H7|exact Hd].
Defined.

(** alice logs out and asks for the publish page. *)
Lemma logout_ends_session_witness :
  let out := demo_handle RouteLogout (request GET []) (as_user (Some 1)) in
  load_user (as_user (Some 1)) = Some alice /\
  fst out = Redirect EpHome /\
  load_user (snd out) = None /\
  fst (demo_handle RoutePublish (request GET []) (snd out)) = Redirect EpHome.
Proof.
  intros out.
  destruct (@logout_ends_session demo (request GET []) (as_user (Some 1)) alice
              eq_refl eq_refl) as (Hr & _ & _ & Hl & Hgate).
  split; [reflexivity|]. split; [exact Hr|]. split; [exact Hl|].
  exact (proj1 (Hgate RoutePublish (request GET []) eq_refl eq_refl)).
Defined.

(** alice logs in with her password. *)
Lemma login_opens_session_witness :
  let req := request POST (login_form "alice" "wonderland") in
  let out := demo_handle RouteLogin req (as_user None) in
  NoDup (map user_id (user_table demo_db)) /\
  fst out = Redirect EpHome /\
  load_user (snd out) = Some alice /\
  fst (demo_handle RoutePublish (request GET []) (snd out))
    = Render (PublishHtml (category_table demo_db) (@pycountry_countries demo)
                          article_types).
Proof.
  intros req out. destruct demo_db_ids_unique as [Hu _].
  destruct (@login_opens_session demo req (as_user None) "alice" "wonderland"
              alice Hu eq_refl eq_refl eq_refl eq_refl eq_refl)
    as (Hr & _ & Hl & Hpub).
  split; [exact Hu|]. split; [exact Hr|]. split; [exact Hl|].
  exact (f_equal fst (Hpub (request GET []) eq_refl)).
Defined.

(** A wrong password for alice, and a username nobody has. *)
Lemma login_refusal_is_uniform_witness :
  demo_handle RouteLogin (request POST (login_form "alice" "guess")) (as_user None)
  = (Render LoginHtml, flashed (as_user None) "Invalid username or password") /\
  demo_handle RouteLogin (request POST (login_form "mallory" "guess")) (as_user None)
  = (Render LoginHtml, flashed (as_user None) "Invalid username or password").
Proof.
  split.
  - apply (@login_refusal_is_uniform demo
             (request POST (login_form "alice" "guess")) (as_user None)
             "alice" "guess" eq_refl eq_refl eq_refl).
    right. exists alice. split; reflexivity.
  - apply (@login_refusal_is_uniform demo
             (request POST (login_form "mallory" "guess")) (as_user None)
             "mallory" "guess" eq_refl eq_refl eq_refl).
    left. reflexivity.
Defined.

(** A GET of the edit page by the author, with a filled form attached. *)
Lemma get_never_writes_witness :
  db (snd (demo_handle (RouteEdit 1) (request GET (article_form ["Chad"]))
                       (as_user (Some 1)))) = demo_db.
Proof.
  exact (@get_never_writes demo (RouteEdit 1) (request GET (article_form ["Chad"]))
           (as_user (Some 1)) eq_refl).
Defined.


(** bob posts the article form without its source field. *)
Lemma publish_missing_field_writes_nothing_witness :
  let req := request POST [("title", "Breach"); ("content", "# Breach");
                           ("type", "News"); ("download_link", "")] in
  load_user (as_user (Some 2)) = Some bob /\
  field_data req "source" = None /\
  failed (as_user (Some 2)) (demo_handle RoutePublish req (as_user (Some 2))).
Proof.
  intros req. split; [reflexivity|]. split; [reflexivity|].
  apply (@publish_missing_field_writes_nothing demo req (as_user (Some 2)) bob
           "source" eq_refl eq_refl); [simpl; tauto|reflexivity].
Defined.

(** alice posts the edit form with a title and nothing else. *)
Lemma edit_missing_field_changes_nothing_witness :
  let req := request POST [("title", "Changed")] in
  load_user (as_user (Some 1)) = Some alice /\
  field_data req "content" = None /\
  failed (as_user (Some 1)) (demo_handle (RouteEdit 1) req (as_user (Some 1))) /\
  article_table (db (snd (demo_handle (RouteEdit 1) req (as_user (Some 1)))))
    = [leak1].
Proof.
  intros req.
  pose proof (@edit_missing_field_changes_nothing demo 1 req (as_user (Some 1))
                alice leak1 "content" eq_refl eq_refl eq_refl eq_refl
                (or_intror (or_introl eq_refl)) eq_refl) as Hf.
  split; [reflexivity|]. split; [reflexivity|]. split; [exact Hf|].
  destruct Hf as (_ & Hd & _). exact (f_equal article_table Hd).
Defined.

(** No article has the id 7. *)
Lemma missing_article_is_internal_error_witness :
  find (fun b => Nat.eqb (article_id b) 7) (article_table demo_db) = None /\
  failed (as_user None) (demo_handle (RouteArticle 7) (request GET []) (as_user None)) /\
  failed (as_user (Some 1))
         (demo_handle (RouteDelete 7) (request POST []) (as_user (Some 1))).
Proof.
  destruct (@missing_article_is_internal_error demo 7 (request GET [])
              (as_user None) eq_refl) as [Hview _].
  destruct (@missing_article_is_internal_error demo 7 (request POST [])
              (as_user (Some 1)) eq_refl) as [_ Hwrite].
  split; [reflexivity|]. split; [exact (Hview eq_refl)|].
  exact (proj2 (Hwrite alice eq_refl) eq_refl).
Defined.

(** The home page over two articles: the later one comes first. *)
Lemma home_lists_all_newest_first_witness :
  exists l,
    demo_handle RouteHome (request GET []) (two_articles None)
      = (Render (HomeHtml l), two_articles None) /\
    map fst l = [note2; leak1] /\
    Permutation (map fst l) [leak1; note2] /\
    Sorted newer_or_equal (map fst l).
Proof.
  destruct (@home_lists_all_newest_first demo (request GET []) (two_articles None)
              eq_refl) as (l & Hl & Hp & Hs & _).
  exists l. split; [exact Hl|]. split; [|split; [exact Hp|exact Hs]].
  assert (E : Render (HomeHtml l)
              = Render (HomeHtml [(note2, "<p>text</p>"); (leak1, "<p>*text*</p>")])).
  { exact (eq_trans (eq_sym (f_equal fst Hl)) eq_refl). }
  injection E as ->. reflexivity.
Defined.

(** bob publishes; the article is on its page, the home page and the
    page of its source. *)
Lemma published_article_is_listed_witness :
  let req := request POST (article_form ["France"]) in
  let st' := snd (demo_handle RoutePublish req (as_user (Some 2))) in
  load_user (as_user (Some 2)) = Some bob /\
  exists a,
    ~ In (article_id a) [1] /\ author a = "bob" /\
    fst (demo_handle (RouteArticle (article_id a)) (request GET []) st')
      = Render (ArticleHtml a "<p># Breach</p>") /\
    (exists l, fst (demo_handle (RouteSource "Reuters") (request GET []) st')
               = Render (SourceArticlesHtml l "Reuters") /\ In a l).
Proof.
  intros req st'.
  destruct (@published_article_is_listed demo req (as_user (Some 2)) bob
              "Breach" "# Breach" "Rumour" "http://x/2" "Reuters"
              eq_refl eq_refl eq_refl eq_refl eq_refl eq_refl eq_refl)
    as (a & Hnew & Hau & _ & Hshown).
  destruct (Hshown (request GET []) eq_refl) as (Hpage & _ & (l & Hl & Hin)).
  split; [reflexivity|]. exists a. split; [exact Hnew|]. split; [exact Hau|].
  split; [exact (f_equal fst Hpage)|].
  exists l. split; [exact (f_equal fst Hl)|exact Hin].
Defined.

(** bob publishes and deletes what he published. *)
Lemma publish_then_delete_restores_witness :
  let req := request POST (article_form ["France"]) in
  let st1 := snd (demo_handle RoutePublish req (as_user (Some 2))) in
  load_user (as_user (Some 2)) = Some bob /\
  fk_article demo_db /\
  map article_id (article_table (db st1)) = [1; 2] /\
  db (snd (demo_handle (RouteDelete 2) (request POST []) st1)) = demo_db.
Proof.
  intros req st1. destruct demo_foreign_keys as [Hfk _].
  destruct (@publish_then_delete_restores demo req (request POST [])
              (as_user (Some 2)) bob "Breach" "# Breach" "Rumour" "http://x/2"
              "Reuters" eq_refl eq_refl eq_refl eq_refl eq_refl eq_refl eq_refl
              Hfk eq_refl) as (_ & Hd).
  split; [reflexivity|]. split; [exact Hfk|]. split; [reflexivity|exact Hd].
Defined.

(** alice deletes her article; the one of bob stays, with its category. *)
Lemma delete_keeps_other_articles_witness :
  let d' := db (snd (demo_handle (RouteDelete 1) (request POST [])
                                 (two_articles (Some 1)))) in
  load_user (two_articles (Some 1)) = Some alice /\
  In note2 (article_table d') /\
  Article_categories d' note2 = [mkCategory 2 "Tech"].
Proof.
  intros d'.
  destruct (@delete_keeps_other_articles demo 1 (request POST [])
              (two_articles (Some 1)) alice leak1 eq_refl eq_refl eq_refl eq_refl)
    as (_ & _ & Hothers).
  assert (Hne : article_id note2 <> 1) by discriminate.
  destruct (Hothers note2 Hne) as (Hin & Hcats).
  split; [reflexivity|]. split.
  - apply Hin. simpl. tauto.
  - exact (eq_trans Hcats eq_refl).
Defined.

(** alice deletes her article, asks for its page and deletes again. *)
Lemma deleted_article_is_gone_witness :
  let st' := snd (demo_handle (RouteDelete 1) (request POST []) (as_user (Some 1))) in
  load_user (as_user (Some 1)) = Some alice /\
  failed st' (demo_handle (RouteArticle 1) (request GET []) st') /\
  failed st' (demo_handle (RouteDelete 1) (request POST []) st').
Proof.
  intros st'.
  destruct (@deleted_article_is_gone demo 1 (request POST []) (request GET [])
              (as_user (Some 1)) alice leak1 eq_refl eq_refl eq_refl eq_refl)
    as (Hpage & _).
  destruct (@deleted_article_is_gone demo 1 (request POST []) (request POST [])
              (as_user (Some 1)) alice leak1 eq_refl eq_refl eq_refl eq_refl)
    as (_ & Hagain).
  split; [reflexivity|]. split; [exact (Hpage eq_refl)|exact (Hagain eq_refl)].
Defined.

(** alice edits her article and looks at its page. *)
Lemma edited_article_is_shown_witness :
  let req := request POST (article_form ["Kenya"]) in
  let st' := snd (demo_handle (RouteEdit 1) req (as_user (Some 1))) in
  load_user (as_user (Some 1)) = Some alice /\
  exists a',
    fst (demo_handle (RouteArticle 1) (request GET []) st')
      = Render (ArticleHtml a' "<p># Breach</p>") /\
    title a' = "Breach" /\ author a' = "alice" /\ publish_date a' = 100.
Proof.
  intros req st'.
  destruct (@edited_article_is_shown demo 1 req (request GET [])
              (as_user (Some 1)) alice leak1 "Breach" "# Breach" "Rumour"
              "http://x/2" eq_refl eq_refl eq_refl eq_refl eq_refl eq_refl
              eq_refl eq_refl eq_refl)
    as (a' & Hpage & Ht & _ & _ & Hau & Hd).
  split; [reflexivity|]. exists a'. split; [exact (f_equal fst Hpage)|].
  split; [exact Ht|]. split; [exact Hau|exact Hd].
Defined.

(** alice opens the edit page of her article, stored with two countries. *)
Lemma edit_form_recovers_selection_witness :
  load_user (as_user (Some 1)) = Some alice /\
  country leak1 = Some (join ", " ["France"; "Germany"]) /\
  Forall (fun y => contains ", " y = false) ["France"; "Germany"] /\
  demo_handle (RouteEdit 1) (request GET []) (as_user (Some 1))
  = (Render (EditArticleHtml leak1 (@pycountry_countries demo)
                             ["France"; "Germany"] article_types),
     as_user (Some 1)).
Proof.
  assert (Hall : Forall (fun y => contains ", " y = false) ["France"; "Germany"]).
  { repeat constructor. }
  assert (Hne : ["France"; "Germany"] <> [""]) by discriminate.
  split; [reflexivity|]. split; [reflexivity|]. split; [exact Hall|].
  exact (@edit_form_recovers_selection demo 1 (request GET []) (as_user (Some 1))
           alice leak1 ["France"; "Germany"] eq_refl eq_refl eq_refl eq_refl
           eq_refl Hall Hne).
Defined.

(** The listing of the source "AP" over the two articles. *)
Lemma source_listing_is_exact_witness :
  exists l,
    demo_handle (RouteSource "AP") (request GET []) (two_articles None)
      = (Render (SourceArticlesHtml l "AP"), two_articles None) /\
    In leak1 l /\ ~ In note2 l.
Proof.
  destruct (@source_listing_is_exact demo "AP" (request GET []) (two_articles None)
              eq_refl) as (l & Hl & Hiff).
  exists l. split; [exact Hl|]. split.
  - apply Hiff. split; [simpl; tauto|reflexivity].
  - intros Hin. apply Hiff in Hin as [_ Hsrc]. discriminate Hsrc.
Defined.

(** A login POST without the password field. *)
Lemma login_missing_field_is_internal_error_witness :
  let req := request POST [("username", "alice")] in
  field_data req "password" = None /\
  failed (as_user None) (demo_handle RouteLogin req (as_user None)).
Proof.
  intros req. split; [reflexivity|].
  exact (@login_missing_field_is_internal_error demo req (as_user None) eq_refl
           (or_intror eq_refl)).
Defined.
